(** * mcp-server-eks: the cluster query facade and its transports

    A shallow embedding of the request handlers of [server-simple.py],
    [server-enhanced.py] and [server-claude-bridge.py].

    Python values are embedded as follows.
    - A JSON-shaped [dict] literal built by a handler is a [JObj] over an
      association list (insertion order is what [json.dumps] prints).
    - A [dict] that is only read ([os.environ], node labels, the parsed query
      string) is a [gmap].
    - An attribute that the Kubernetes client types as optional is an
      [option]; the source itself guards several of them with [or].
    - A JSON number is an integer: no handler builds or inspects a float.
    - An expression that may raise is a computation in [outcome]; a
      statement that also reads or writes the process is one in [Py], a
      state and exception monad in which the state written before a raise
      survives it, as it does in Python. *)

From Stdlib Require Import ZArith Lia.
From stdpp Require Import base option strings list gmap pretty.

Set Warnings "-register-all".

Local Open Scope Z_scope.
Local Open Scope string_scope.
Local Open Scope list_scope.

(** ** JSON values *)

Inductive json : Type :=
  | JNull
  | JBool (b : bool)
  | JInt (n : Z)
  | JStr (s : string)
  | JList (l : list json)
  | JObj (o : list (string * json)).

(** [d.get(k)] on a dict: the value stored under [k], if any. *)
Fixpoint dict_get (k : string) (o : list (string * json)) : option json :=
  match o with
  | [] => None
  | (k', v) :: o' => if String.eqb k' k then Some v else dict_get k o'
  end.

(** [k in d]. *)
Definition dict_has (k : string) (o : list (string * json)) : bool :=
  bool_decide (is_Some (dict_get k o)).

(** Field access on a JSON value that is expected to be an object. *)
Definition json_field (k : string) (j : json) : option json :=
  match j with
  | JObj o => dict_get k o
  | _ => None
  end.

(** The text returned by [json.dumps(obj)] or [json.dumps(obj, indent=2)].
    Serialisation is library code; the text is represented by the value that
    was serialised together with the [indent] argument. *)
Record json_text : Type := Dumps { dumped : json; indent : option Z }.

Definition json_of_opt_string (s : option string) : json :=
  match s with Some s => JStr s | None => JNull end.

Definition json_of_opt_int (n : option Z) : json :=
  match n with Some n => JInt n | None => JNull end.

(** ** Exceptions *)

(** The subclasses of [Exception] that the handlers can meet.
    [ApiException] is [kubernetes.client.exceptions.ApiException]; it carries
    the HTTP status and reason of the failed call and the text of its
    [__str__].  [OtherException] stands for any further subclass (timeouts,
    connection errors, ...), identified by the text of its [str]. *)
Inductive exn : Type :=
  | ApiException (status : option Z) (reason : string) (text : string)
  | AttributeError (msg : string)
  | TypeError (msg : string)
  | ValueError (msg : string)
  | IndexError (msg : string)
  | OtherException (msg : string).

(** [str(e)]. *)
Definition str_exn (e : exn) : string :=
  match e with
  | ApiException _ _ text => text
  | AttributeError msg | TypeError msg | ValueError msg
  | IndexError msg | OtherException msg => msg
  end.

Inductive outcome (A : Type) : Type :=
  | Ret (a : A)
  | Raise (e : exn).
Arguments Ret {A} a.
Arguments Raise {A} e.

(** Expressions that may raise but touch no state run in [outcome]. *)
#[global] Instance outcome_ret : MRet outcome := @Ret.
#[global] Instance outcome_bind : MBind outcome :=
  λ A B f m, match m with Ret a => f a | Raise e => Raise e end.

(** [[x for x in xs if p(x)]], where the test itself may raise.  (The
    comprehension [[f(x) for x in xs]] is [mapM f xs]: the elements are
    visited in order and the first exception ends the loop.) *)
Fixpoint filterM {A} (p : A → outcome bool) (xs : list A)
    : outcome (list A) :=
  match xs with
  | [] => mret []
  | x :: xs' =>
      keep ← p x;
      ys ← filterM p xs';
      mret (if keep : bool then x :: ys else ys)
  end.

(** ** The state and exception monad *)

Definition Py (S A : Type) : Type := S → outcome A * S.

Section monad.
Context {S : Type}.

Definition py_ret {A} (a : A) : Py S A := λ s, (Ret a, s).

Definition py_bind {A B} (f : A → Py S B) (m : Py S A) : Py S B :=
  λ s, match m s with
       | (Ret a, s') => f a s'
       | (Raise e, s') => (Raise e, s')
       end.

(** [raise e] *)
Definition py_raise {A} (e : exn) : Py S A := λ s, (Raise e, s).

(** [try: m except Exception as e: h e].  An exception raised by the
    handler itself propagates. *)
Definition try_except {A} (m : Py S A) (h : exn → Py S A) : Py S A :=
  λ s, match m s with
       | (Ret a, s') => (Ret a, s')
       | (Raise e, s') => h e s'
       end.

(** An expression that leaves the state alone. *)
Definition py_lift {A} (o : outcome A) : Py S A := λ s, (o, s).

Definition py_gets {A} (f : S → A) : Py S A := λ s, (Ret (f s), s).

Definition py_modify (f : S → S) : Py S unit := λ s, (Ret tt, f s).
End monad.

#[global] Instance py_mret {S} : MRet (Py S) := @py_ret S.
#[global] Instance py_mbind {S} : MBind (Py S) := @py_bind S.

(** ** Records of the Kubernetes client *)

Record V1Condition : Type := { ctype : string; cstatus : string }.

Record V1ObjectMeta : Type := {
  name : string;
  labels : option (gmap string string)
}.

Record V1Namespace : Type := { ns_metadata : V1ObjectMeta }.

Record V1NodeStatus : Type := {
  node_conditions : option (list V1Condition)
}.

Record V1Node : Type := {
  node_metadata : V1ObjectMeta;
  node_status : V1NodeStatus
}.

Record V1ContainerStatus : Type := { restart_count : option Z }.

Record V1PodStatus : Type := {
  phase : option string;
  pod_conditions : option (list V1Condition);
  container_statuses : option (list V1ContainerStatus)
}.

Record V1Pod : Type := {
  pod_metadata : V1ObjectMeta;
  pod_status : V1PodStatus
}.

Record V1DeploymentSpec : Type := { replicas : option Z }.

Record V1DeploymentStatus : Type := {
  ready_replicas : option Z;
  available_replicas : option Z
}.

Record V1Deployment : Type := {
  dep_metadata : V1ObjectMeta;
  dep_spec : V1DeploymentSpec;
  dep_status : V1DeploymentStatus
}.

(** What the cluster answers to the four read calls made through [v1] and
    [apps_v1]: the [items] of the returned list object, or the exception the
    call raises.  The argument of [list_namespace] is its [limit]. *)
Record Cluster : Type := {
  list_namespace : option Z → outcome (list V1Namespace);
  list_node : outcome (list V1Node);
  list_namespaced_pod : string → outcome (list V1Pod);
  list_namespaced_deployment : string → outcome (list V1Deployment)
}.

(** Records handed to [logger]. *)
Inductive level : Type := INFO | WARNING | ERROR.
Record LogRecord : Type := { lvl : level; text : string }.

(** ** Expressions shared by the variants *)

(** [c.type == "Ready" and c.status == "True"] *)
Definition is_ready (c : V1Condition) : bool :=
  String.eqb (ctype c) "Ready" && String.eqb (cstatus c) "True".

(** [for x in it] where [it] may be [None]. *)
Definition py_iter {A} (it : option (list A)) : outcome (list A) :=
  match it with
  | Some l => Ret l
  | None => Raise (TypeError "'NoneType' object is not iterable")
  end.

(** [d.get(k, dflt)] where [d] may be [None]. *)
Definition py_dict_get (d : option (gmap string string))
    (k dflt : string) : outcome string :=
  match d with
  | Some m => Ret (default dflt (m !! k))
  | None => Raise (AttributeError "'NoneType' object has no attribute 'get'")
  end.

(** [x or 0] on an optional integer: [None] and [0] both give [0]. *)
Definition or_zero (x : option Z) : Z := default 0 x.

(** [x or []] *)
Definition or_empty {A} (x : option (list A)) : list A := default [] x.

(** [sum(1 for c in (conditions or []) if <Ready and True>)] *)
Definition ready_count (conds : option (list V1Condition)) : Z :=
  Z.of_nat (length (filter (λ c, is_ready c = true) (or_empty conds))).

(** [sum(c.restart_count or 0 for c in (container_statuses or []))] *)
Definition restart_total (cs : option (list V1ContainerStatus)) : Z :=
  foldr (λ c acc, or_zero (restart_count c) + acc) 0 (or_empty cs).

(** The dict appended for one node by [handle_nodes] and by the
    [resource://node-info] branch: [name], [status], [instance_type], [zone],
    evaluated in that order. *)
Definition node_info_entry (node : V1Node) : outcome json :=
  conds ← py_iter (node_conditions (node_status node));
  let status := if existsb is_ready conds then "Ready" else "NotReady" in
  it ← py_dict_get (labels (node_metadata node))
         "node.kubernetes.io/instance-type" "unknown";
  zone ← py_dict_get (labels (node_metadata node))
           "topology.kubernetes.io/zone" "unknown";
  mret (JObj [("name", JStr (name (node_metadata node)));
              ("status", JStr status);
              ("instance_type", JStr it);
              ("zone", JStr zone)]).

(** The [pod_info] dict of [handle_pods] and of the [list_pods] tool. *)
Definition pod_info (pod : V1Pod) : json :=
  JObj [("name", JStr (name (pod_metadata pod)));
        ("phase", json_of_opt_string (phase (pod_status pod)));
        ("ready", JInt (ready_count (pod_conditions (pod_status pod))));
        ("restart_count",
          JInt (restart_total (container_statuses (pod_status pod))))].

(** The dict appended for one deployment. *)
Definition deployment_info (d : V1Deployment) : json :=
  JObj [("name", JStr (name (dep_metadata d)));
        ("replicas", json_of_opt_int (replicas (dep_spec d)));
        ("ready_replicas", JInt (or_zero (ready_replicas (dep_status d))));
        ("available_replicas",
          JInt (or_zero (available_replicas (dep_status d))))].

(** [{"error": msg}] *)
Definition error_body (msg : string) : json := JObj [("error", JStr msg)].

(** [f"Namespace '{namespace}' not found"] *)
Definition not_found_msg (namespace : string) : string :=
  "Namespace '" +:+ namespace +:+ "' not found".

(** [f"API error: {e.reason}"] *)
Definition api_error_msg (reason : string) : string :=
  "API error: " +:+ reason.

(** The body chosen by [except client.exceptions.ApiException as e]. *)
Definition api_exception_body (namespace : string) (status : option Z)
    (reason : string) : json :=
  if bool_decide (status = Some 404) then error_body (not_found_msg namespace)
  else error_body (api_error_msg reason).

(** * [server-simple.py]: the HTTP transport *)

Module Simple.

(** ** The request, as [do_GET] sees it *)

(** [urlparse] and [parse_qs] are library code: the request carries the path
    and the query dict they return for [self.path], next to the two handler
    attributes that logging reads. *)
Record Request : Type := {
  address_string : string;
  requestline : string;
  path : string;
  query_params : gmap string (list string)
}.

(** ** What is written to the connection *)

Inductive payload : Type :=
  | JsonBytes (t : json_text)
      (** [json.dumps(data, indent=2).encode()] *)
  | ErrorPage (code : Z) (message explain : string)
      (** [error_message_format] filled in by [send_error] *).

(** Header values.  Three of them are computed by [http.server] and are kept
    symbolic: the server version, the date (read from the clock) and the
    length of an encoded body. *)
Inductive hval : Type :=
  | HLit (s : string)
  | HVersion
  | HDate (now : string)
  | HLength (p : payload).

Inductive out : Type :=
  | StatusLine (code : Z) (message : string)
  | Header (keyword : string) (value : hval)
  | EndHeaders
  | Body (p : payload).

(** ** The state a request runs in *)

(** The process-wide part (cluster behind [v1] and [apps_v1], [os.environ],
    the wall clock, the records emitted through [logger]) and the output
    stream [wfile] of the connection being served. *)
Record St : Type := {
  cluster : Cluster;
  environ : gmap string string;
  clock : string;
  logged : list LogRecord;
  wfile : list out
}.

Definition log_add (r : LogRecord) (s : St) : St :=
  {| cluster := cluster s; environ := environ s; clock := clock s;
     logged := logged s ++ [r]; wfile := wfile s |}.

Definition wfile_add (o : out) (s : St) : St :=
  {| cluster := cluster s; environ := environ s; clock := clock s;
     logged := logged s; wfile := wfile s ++ [o] |}.

Abbreviation M := (Py St).

(** [os.getenv(key, dflt)] *)
Definition os_getenv (key dflt : string) : M string :=
  py_gets (λ s, default dflt (environ s !! key)).

Definition v1_list_namespace (limit : option Z) : M (list V1Namespace) :=
  λ s, (list_namespace (cluster s) limit, s).

Definition v1_list_node : M (list V1Node) :=
  λ s, (list_node (cluster s), s).

Definition v1_list_namespaced_pod (namespace : string) : M (list V1Pod) :=
  λ s, (list_namespaced_pod (cluster s) namespace, s).

Definition apps_v1_list_namespaced_deployment (namespace : string)
    : M (list V1Deployment) :=
  λ s, (list_namespaced_deployment (cluster s) namespace, s).

Definition logger_info (msg : string) : M unit :=
  py_modify (log_add {| lvl := INFO; text := msg |}).

Definition logger_error (msg : string) : M unit :=
  py_modify (log_add {| lvl := ERROR; text := msg |}).

(** ** The part of [BaseHTTPRequestHandler] the handlers call

    Writing to the connection is taken to succeed, and the request method
    is GET, so that [send_error] writes its page. *)

Definition dquote : string := String (Ascii.ascii_of_nat 34) EmptyString.

(** [MCPHandler.log_message], with [format % args] already formatted. *)
Definition log_message (self : Request) (formatted : string) : M unit :=
  logger_info (address_string self +:+ " - " +:+ formatted).

Definition log_request (self : Request) (code : Z) : M unit :=
  log_message self
    (dquote +:+ requestline self +:+ dquote +:+ " " +:+ pretty code +:+ " -").

Definition log_error (self : Request) (code : Z) (message : string) : M unit :=
  log_message self ("code " +:+ pretty code +:+ ", message " +:+ message).

(** The entries of [self.responses] for the status codes this server sends:
    the short and the long message. *)
Definition responses (code : Z) : option (string * string) :=
  if (code =? 200)%Z then Some ("OK", "Request fulfilled, document follows")
  else if (code =? 404)%Z
       then Some ("Not Found", "Nothing matches the given URI")
  else if (code =? 500)%Z
       then Some ("Internal Server Error", "Server got itself in trouble")
  else None.

Definition send_header (keyword : string) (value : hval) : M unit :=
  py_modify (wfile_add (Header keyword value)).

Definition end_headers : M unit := py_modify (wfile_add EndHeaders).

Definition wfile_write (p : payload) : M unit := py_modify (wfile_add (Body p)).

Definition send_response (self : Request) (code : Z)
    (message : option string) : M unit :=
  log_request self code;;
  py_modify (wfile_add
    (StatusLine code
       (default (default EmptyString (fst <$> responses code)) message)));;
  send_header "Server" HVersion;;
  now ← py_gets clock;
  send_header "Date" (HDate now).

Definition send_error (self : Request) (code : Z) (message : string)
    : M unit :=
  let explain := default "???" (snd <$> responses code) in
  log_error self code message;;
  send_response self code (Some message);;
  send_header "Connection" (HLit "close");;
  if (200 <=? code)%Z && negb (bool_decide (code ∈ [204; 205; 304]))
  then
    let body := ErrorPage code message explain in
    send_header "Content-Type" (HLit "text/html;charset=utf-8");;
    send_header "Content-Length" (HLength body);;
    end_headers;;
    wfile_write body
  else end_headers.

(** ** [MCPHandler] *)

Definition send_json_response (self : Request) (data : json) (status : Z)
    : M unit :=
  send_response self status None;;
  send_header "Content-type" (HLit "application/json");;
  send_header "Access-Control-Allow-Origin" (HLit "*");;
  end_headers;;
  wfile_write (JsonBytes (Dumps data (Some 2))).

Definition handle_health (self : Request) : M unit :=
  try_except
    (v1_list_namespace (Some 1);;
     send_json_response self
       (JObj [("status", JStr "healthy");
              ("kubernetes_api", JStr "accessible");
              ("server", JStr "mcp-eks-server")]) 200)
    (λ e,
     send_json_response self
       (JObj [("status", JStr "unhealthy");
              ("kubernetes_api", JStr "inaccessible");
              ("error", JStr (str_exn e))]) 500).

Definition handle_cluster_info (self : Request) : M unit :=
  try_except
    (namespaces ← v1_list_namespace None;
     cluster_name ← os_getenv "CLUSTER_NAME" "mcp-eks-cluster";
     region ← os_getenv "AWS_REGION" "us-east-1";
     send_json_response self
       (JObj [("cluster_name", JStr cluster_name);
              ("region", JStr region);
              ("namespace_count", JInt (Z.of_nat (length namespaces)));
              ("namespaces",
                JList ((λ ns, JStr (name (ns_metadata ns))) <$> namespaces))])
       200)
    (λ e, send_json_response self (error_body (str_exn e)) 500).

Definition handle_nodes (self : Request) : M unit :=
  try_except
    (nodes ← v1_list_node;
     node_info ← py_lift (mapM node_info_entry nodes);
     send_json_response self
       (JObj [("node_count", JInt (Z.of_nat (length nodes)));
              ("nodes", JList node_info)]) 200)
    (λ e, send_json_response self (error_body (str_exn e)) 500).

Definition handle_pods (self : Request) (namespace : string) : M unit :=
  try_except
    (pods ← v1_list_namespaced_pod namespace;
     let pod_list := pod_info <$> pods in
     send_json_response self
       (JObj [("namespace", JStr namespace);
              ("pod_count", JInt (Z.of_nat (length pod_list)));
              ("pods", JList pod_list)]) 200)
    (λ e,
     match e with
     | ApiException status reason _ =>
         send_json_response self (api_exception_body namespace status reason)
           500
     | _ => send_json_response self (error_body (str_exn e)) 500
     end).

Definition handle_deployments (self : Request) (namespace : string)
    : M unit :=
  try_except
    (deployments ← apps_v1_list_namespaced_deployment namespace;
     let deployment_list := deployment_info <$> deployments in
     send_json_response self
       (JObj [("namespace", JStr namespace);
              ("deployment_count", JInt (Z.of_nat (length deployment_list)));
              ("deployments", JList deployment_list)]) 200)
    (λ e,
     match e with
     | ApiException status reason _ =>
         send_json_response self (api_exception_body namespace status reason)
           500
     | _ => send_json_response self (error_body (str_exn e)) 500
     end).

(** [query_params.get('namespace', ['default'])[0]] *)
Definition namespace_param (self : Request) : M string :=
  match default ["default"] (query_params self !! "namespace") with
  | ns :: _ => mret ns
  | [] => py_raise (IndexError "list index out of range")
  end.

Definition do_GET (self : Request) : M unit :=
  try_except
    (if String.eqb (path self) "/health" then handle_health self
     else if String.eqb (path self) "/cluster-info"
          then handle_cluster_info self
     else if String.eqb (path self) "/nodes" then handle_nodes self
     else if String.eqb (path self) "/pods"
          then namespace ← namespace_param self; handle_pods self namespace
     else if String.eqb (path self) "/deployments"
          then namespace ← namespace_param self;
               handle_deployments self namespace
     else send_error self 404 "Not Found")
    (λ e,
     logger_error ("Error handling request: " +:+ str_exn e);;
     send_error self 500 (str_exn e)).

(** ** Reading a response back from the stream *)

Definition sent_status (w : list out) : list Z :=
  omap (λ o, match o with StatusLine c _ => Some c | _ => None end) w.

Definition sent_headers (w : list out) : list (string * hval) :=
  omap (λ o, match o with Header k v => Some (k, v) | _ => None end) w.

Definition sent_json (w : list out) : list json :=
  omap (λ o, match o with
             | Body (JsonBytes t) => Some (dumped t)
             | _ => None
             end) w.

(** The process state with a fresh connection. *)
Definition connect (s : St) : St :=
  {| cluster := cluster s; environ := environ s; clock := clock s;
     logged := logged s; wfile := [] |}.

(** Serving one request: what [do_GET] leaves on a fresh connection. *)
Definition serve (self : Request) (s : St) : outcome unit * St :=
  do_GET self (connect s).

End Simple.

(** * [server-enhanced.py]: the MCP transport over the live cluster *)

Module Enhanced.

Record St : Type := {
  cluster : Cluster;
  environ : gmap string string;
  logged : list LogRecord
}.

Definition log_add (r : LogRecord) (s : St) : St :=
  {| cluster := cluster s; environ := environ s; logged := logged s ++ [r] |}.

Abbreviation M := (Py St).

Definition os_getenv (key dflt : string) : M string :=
  py_gets (λ s, default dflt (environ s !! key)).

Definition v1_list_namespace (limit : option Z) : M (list V1Namespace) :=
  λ s, (list_namespace (cluster s) limit, s).

Definition v1_list_node : M (list V1Node) :=
  λ s, (list_node (cluster s), s).

Definition v1_list_namespaced_pod (namespace : string) : M (list V1Pod) :=
  λ s, (list_namespaced_pod (cluster s) namespace, s).

Definition apps_v1_list_namespaced_deployment (namespace : string)
    : M (list V1Deployment) :=
  λ s, (list_namespaced_deployment (cluster s) namespace, s).

Definition logger_error (msg : string) : M unit :=
  py_modify (log_add {| lvl := ERROR; text := msg |}).

(** [json.dumps(obj)] and [json.dumps(obj, indent=2)] *)
Definition json_dumps (obj : json) : json_text := Dumps obj None.
Definition json_dumps_indent2 (obj : json) : json_text := Dumps obj (Some 2).

(** [handle_read_resource(uri)]; the argument is [str(uri)]. *)
Definition handle_read_resource (uri : string) : M json_text :=
  try_except
    (if String.eqb uri "resource://cluster-info" then
       namespaces ← v1_list_namespace None;
       cluster_name ← os_getenv "CLUSTER_NAME" "mcp-eks-cluster";
       region ← os_getenv "AWS_REGION" "us-west-2";
       mret (json_dumps
         (JObj [("cluster_name", JStr cluster_name);
                ("region", JStr region);
                ("namespace_count", JInt (Z.of_nat (length namespaces)));
                ("server_version", JStr "1.28");
                ("namespaces",
                  JList ((λ ns, JStr (name (ns_metadata ns)))
                           <$> namespaces))]))
     else if String.eqb uri "resource://node-info" then
       nodes ← v1_list_node;
       node_info ← py_lift (mapM node_info_entry nodes);
       mret (json_dumps
         (JObj [("node_count", JInt (Z.of_nat (length nodes)));
                ("nodes", JList node_info)]))
     else if String.eqb uri "resource://health" then
       try_except
         (v1_list_namespace (Some 1);;
          mret (json_dumps
            (JObj [("status", JStr "healthy");
                   ("kubernetes_api", JStr "accessible");
                   ("timestamp", JStr "2024-01-01T00:00:00Z")])))
         (λ e,
          mret (json_dumps
            (JObj [("status", JStr "unhealthy");
                   ("kubernetes_api", JStr "inaccessible");
                   ("error", JStr (str_exn e));
                   ("timestamp", JStr "2024-01-01T00:00:00Z")])))
     else py_raise (ValueError ("Unknown resource: " +:+ uri)))
    (λ e,
     logger_error ("Error reading resource " +:+ uri +:+ ": " +:+ str_exn e);;
     mret (json_dumps (error_body (str_exn e)))).

(** The [arguments] dict of a tool call, read through the keys that the
    tools' input schemas declare, each with its declared type. *)
Record Arguments : Type := {
  include_nodes : option bool;
  namespace : option string;
  show_status : option bool
}.

Record TextContent : Type := { type_ : string; text : json_text }.

(** The dict built per node by the [get_cluster_status] tool. *)
Definition node_ready_entry (node : V1Node) : outcome json :=
  conds ← py_iter (node_conditions (node_status node));
  mret (JObj [("name", JStr (name (node_metadata node)));
              ("ready", JBool (existsb is_ready conds))]).

(** The [pod_info] dict of the [list_pods] tool: the name, updated with the
    status fields when [show_status] holds. *)
Definition tool_pod_info (show : bool) (pod : V1Pod) : json :=
  if show then pod_info pod
  else JObj [("name", JStr (name (pod_metadata pod)))].

(** The [except client.exceptions.ApiException] clause of the two
    namespace-scoped tools; any other exception is not caught here. *)
Definition except_api_exception (ns : string) (e : exn) : M json :=
  match e with
  | ApiException status reason _ => mret (api_exception_body ns status reason)
  | _ => py_raise e
  end.

Definition handle_call_tool (name : string) (arguments : Arguments)
    : M (list TextContent) :=
  try_except
    (if String.eqb name "get_cluster_status" then
       let include := default false (include_nodes arguments) in
       namespaces ← v1_list_namespace None;
       cluster_name ← os_getenv "CLUSTER_NAME" "mcp-eks-cluster";
       let result :=
         [("cluster_name", JStr cluster_name);
          ("namespace_count", JInt (Z.of_nat (length namespaces)));
          ("kubernetes_version", JStr "1.28")] in
       result ←
         (if include then
            nodes ← v1_list_node;
            entries ← py_lift (mapM node_ready_entry nodes);
            mret (result ++
                    [("node_count", JInt (Z.of_nat (length nodes)));
                     ("nodes", JList entries)])
          else mret result);
       mret [{| type_ := "text"; text := json_dumps_indent2 (JObj result) |}]
     else if String.eqb name "list_pods" then
       let ns := default "default" (namespace arguments) in
       let show := default true (show_status arguments) in
       result ←
         try_except
           (pods ← v1_list_namespaced_pod ns;
            let pod_list := tool_pod_info show <$> pods in
            mret (JObj [("namespace", JStr ns);
                        ("pod_count", JInt (Z.of_nat (length pod_list)));
                        ("pods", JList pod_list)]))
           (except_api_exception ns);
       mret [{| type_ := "text"; text := json_dumps_indent2 result |}]
     else if String.eqb name "get_deployments" then
       let ns := default "default" (namespace arguments) in
       result ←
         try_except
           (deployments ← apps_v1_list_namespaced_deployment ns;
            let deployment_list := deployment_info <$> deployments in
            mret (JObj [("namespace", JStr ns);
                        ("deployment_count",
                          JInt (Z.of_nat (length deployment_list)));
                        ("deployments", JList deployment_list)]))
           (except_api_exception ns);
       mret [{| type_ := "text"; text := json_dumps_indent2 result |}]
     else py_raise (ValueError ("Unknown tool: " +:+ name)))
    (λ e,
     logger_error ("Error calling tool " +:+ name +:+ ": " +:+ str_exn e);;
     mret [{| type_ := "text";
              text := json_dumps_indent2 (error_body (str_exn e)) |}]).

End Enhanced.

(** * [server-claude-bridge.py]: the MCP bridge over the HTTP API *)

Module Bridge.

(** The HTTP API as the bridge meets it: for an endpoint, the dict that
    [requests.get(url, timeout=10)], [raise_for_status()] and [.json()]
    produce, or the exception one of them raises. *)
Record St : Type := {
  api : string → outcome (list (string * json));
  logged : list LogRecord
}.

Definition log_add (r : LogRecord) (s : St) : St :=
  {| api := api s; logged := logged s ++ [r] |}.

Abbreviation M := (Py St).

Definition logger_error (msg : string) : M unit :=
  py_modify (log_add {| lvl := ERROR; text := msg |}).

Definition call_mcp_api (endpoint : string) : M (list (string * json)) :=
  try_except
    (λ s, (api s endpoint, s))
    (λ e,
     logger_error
       ("Error calling MCP API " +:+ endpoint +:+ ": " +:+ str_exn e);;
     mret [("error", JStr (str_exn e))]).

(** ** Python operations on loosely typed JSON values *)

Definition type_name (v : json) : string :=
  match v with
  | JNull => "NoneType"
  | JBool _ => "bool"
  | JInt _ => "int"
  | JStr _ => "str"
  | JList _ => "list"
  | JObj _ => "dict"
  end.

(** [for x in v]: a list yields its items, a dict its keys, a string its
    characters; nothing else is iterable. *)
Definition json_iter (v : json) : outcome (list json) :=
  match v with
  | JList l => Ret l
  | JObj o => Ret (JStr <$> o.*1)
  | JStr s =>
      Ret ((λ c, JStr (String c EmptyString)) <$> String.list_ascii_of_string s)
  | _ => Raise (TypeError ("'" +:+ type_name v +:+ "' object is not iterable"))
  end.

(** [len(v)] *)
Definition json_len (v : json) : outcome Z :=
  match v with
  | JList l => Ret (Z.of_nat (length l))
  | JObj o => Ret (Z.of_nat (length o))
  | JStr s => Ret (Z.of_nat (String.length s))
  | _ => Raise
           (TypeError ("object of type '" +:+ type_name v +:+ "' has no len()"))
  end.

(** [n.get(k, dflt)]; [n.get(k)] is [n.get(k, None)]. *)
Definition json_get (n : json) (k : string) (dflt : json) : outcome json :=
  match n with
  | JObj o => Ret (default dflt (dict_get k o))
  | _ => Raise
           (AttributeError
              ("'" +:+ type_name n +:+ "' object has no attribute 'get'"))
  end.

(** [v == s] and [v != s] for a string literal [s]: only an equal string is
    equal to a string. *)
Definition eq_str (v : json) (s : string) : bool :=
  match v with JStr s' => String.eqb s' s | _ => false end.
Definition ne_str (v : json) (s : string) : bool := negb (eq_str v s).

(** ** Formatted text *)

(** An f-string: literal pieces and interpolated values, the latter left as
    the values that [format] is applied to. *)
Inductive frag : Type :=
  | Lit (s : string)
  | Fmt (v : json).

Record TextContent : Type := { type_ : string; text : list frag }.

Definition nl : string := String (Ascii.ascii_of_nat 10) EmptyString.

(** ** The [get_node_info] tool *)

Record Arguments : Type := { include_karpenter_only : option bool }.

(** [n.get('instance_type') != 't3.medium'] *)
Definition not_baseline (n : json) : outcome bool :=
  it ← json_get n "instance_type" JNull;
  mret (ne_str it "t3.medium").

(** The value of [node_list] when the response is formatted:
    [nodes.get("nodes", [])], filtered when [include_karpenter_only] holds. *)
Definition node_list (include_karpenter_only : bool)
    (nodes : list (string * json)) : outcome json :=
  let node_list := default (JList []) (dict_get "nodes" nodes) in
  if include_karpenter_only then
    items ← json_iter node_list;
    kept ← filterM not_baseline items;
    mret (JList kept)
  else mret node_list.

(** The four lines added to the response for one node. *)
Definition node_block (node : json) : outcome (list frag) :=
  status ← json_get node "status" JNull;
  let status_emoji := if eq_str status "Ready" then "✅" else "❌" in
  name ← json_get node "name" (JStr "unknown");
  it ← json_get node "instance_type" (JStr "unknown");
  zone ← json_get node "zone" (JStr "unknown");
  status' ← json_get node "status" (JStr "unknown");
  mret [Lit status_emoji; Lit " "; Fmt name; Lit nl;
        Lit "   • Type: "; Fmt it; Lit nl;
        Lit "   • Zone: "; Fmt zone; Lit nl;
        Lit "   • Status: "; Fmt status'; Lit nl; Lit nl].

(** The branch of [handle_call_tool] taken for [name == "get_node_info"]. *)
Definition get_node_info (arguments : Arguments) : M (list TextContent) :=
  let include := default false (include_karpenter_only arguments) in
  nodes ← call_mcp_api "/nodes";
  match dict_get "error" nodes with
  | Some err =>
      mret [{| type_ := "text";
               text := [Lit "❌ Error getting node info: "; Fmt err] |}]
  | None =>
      node_list ← py_lift (node_list include nodes);
      count ← py_lift (json_len node_list);
      let response :=
        [Lit "🖥️ Your cluster has "; Fmt (JInt count); Lit " ";
         Lit (if include then "Karpenter-managed " else EmptyString);
         Lit "nodes:"; Lit nl; Lit nl] in
      blocks ← py_lift (json_iter node_list ≫= mapM node_block);
      mret [{| type_ := "text"; text := response ++ concat blocks |}]
  end.

End Bridge.

(** * Python comparisons on JSON values *)

(** [bool] is a subclass of [int]: [True == 1] and [False == 0]. *)
Definition as_int (v : json) : option Z :=
  match v with
  | JInt n => Some n
  | JBool b => Some (if b then 1 else 0)
  | _ => None
  end.

(** [a == b].  Numbers compare by value, strings and lists elementwise,
    dicts by their items whatever the order (a dict has no key twice);
    values of different kinds are different. *)
Fixpoint py_eq (a b : json) : bool :=
  match a, b with
  | JNull, JNull => true
  | JStr s, JStr t => String.eqb s t
  | JList l, JList k =>
      (fix go (l k : list json) : bool :=
         match l, k with
         | [], [] => true
         | x :: l', y :: k' => py_eq x y && go l' k'
         | _, _ => false
         end) l k
  | JObj o, JObj p =>
      Nat.eqb (length o) (length p)
      && (fix go (o : list (string * json)) : bool :=
            match o with
            | [] => true
            | (k, v) :: o' =>
                match dict_get k p with
                | Some v' => py_eq v v'
                | None => false
                end && go o'
            end) o
  | _, _ =>
      match as_int a, as_int b with
      | Some x, Some y => (x =? y)%Z
      | _, _ => false
      end
  end.

(** [v > n] for an integer literal [n]: defined on numbers only. *)
Definition py_gt (v : json) (n : Z) : outcome bool :=
  match as_int v with
  | Some x => Ret (n <? x)%Z
  | None =>
      Raise (TypeError ("'>' not supported between instances of '"
                        +:+ Bridge.type_name v +:+ "' and 'int'"))
  end.

(** [v[k]] for a string key [k].  A missing key raises [KeyError], whose
    [str] is the quoted key. *)
Definition py_subscript (v : json) (k : string) : outcome json :=
  match v with
  | JObj o =>
      match dict_get k o with
      | Some x => Ret x
      | None => Raise (OtherException ("'" +:+ k +:+ "'"))
      end
  | JList _ =>
      Raise (TypeError "list indices must be integers or slices, not str")
  | JStr _ => Raise (TypeError "string indices must be integers, not 'str'")
  | _ =>
      Raise (TypeError ("'" +:+ Bridge.type_name v
                        +:+ "' object is not subscriptable"))
  end.

(** * The catalog types of [mcp.types] *)

Record Resource : Type := {
  uri : string;
  resource_name : string;
  resource_description : string;
  mimeType : string
}.

Record Tool : Type := {
  tool_name : string;
  tool_description : string;
  inputSchema : json
}.

(** [inputSchema["properties"][key]["default"]], when all three are there. *)
Definition declared_default (tool : Tool) (key : string) : option json :=
  props ← json_field "properties" (inputSchema tool);
  prop ← json_field key props;
  json_field "default" prop.

(** A schema property [{"type": ..., "description": ...}] and the same with
    a ["default"]. *)
Definition property (type description : string) : json :=
  JObj [("type", JStr type); ("description", JStr description)].

Definition property_default (type description : string) (dflt : json) : json :=
  JObj [("type", JStr type); ("description", JStr description);
        ("default", dflt)].

(** * [server.py]: the first variant, with fixed answers *)

Module Basic.

Definition handle_list_resources : list Resource :=
  [{| uri := "resource://cluster-info";
      resource_name := "EKS Cluster Information";
      resource_description := "Information about the EKS cluster";
      mimeType := "application/json" |};
   {| uri := "resource://health";
      resource_name := "Health Check";
      resource_description := "Server health status";
      mimeType := "application/json" |}].

(** [handle_read_resource(uri)]; the argument is [str(uri)]. *)
Definition handle_read_resource (uri : string) : outcome json_text :=
  if String.eqb uri "resource://cluster-info" then
    Ret (Dumps (JObj [("cluster_name", JStr "mcp-eks-cluster");
                      ("region", JStr "us-west-2");
                      ("status", JStr "active");
                      ("version", JStr "1.28")]) None)
  else if String.eqb uri "resource://health" then
    Ret (Dumps (JObj [("status", JStr "healthy");
                      ("timestamp", JStr "2024-01-01T00:00:00Z")]) None)
  else Raise (ValueError ("Unknown resource: " +:+ uri)).

Definition handle_list_tools : list Tool :=
  [{| tool_name := "get_cluster_status";
      tool_description := "Get the current status of the EKS cluster";
      inputSchema :=
        JObj [("type", JStr "object");
              ("properties",
                JObj [("cluster_name",
                        property "string" "Name of the EKS cluster")]);
              ("required", JList [JStr "cluster_name"])] |};
   {| tool_name := "list_pods";
      tool_description := "List pods in a specific namespace";
      inputSchema :=
        JObj [("type", JStr "object");
              ("properties",
                JObj [("namespace",
                        property_default "string" "Kubernetes namespace"
                          (JStr "default"))])] |}].

Record Arguments : Type := {
  cluster_name : option string;
  namespace : option string
}.

Record TextContent : Type := { type_ : string; text : json_text }.

Definition handle_call_tool (name : string) (arguments : Arguments)
    : outcome (list TextContent) :=
  if String.eqb name "get_cluster_status" then
    let cluster_name := default "mcp-eks-cluster" (cluster_name arguments) in
    Ret [{| type_ := "text";
            text := Dumps (JObj [("cluster_name", JStr cluster_name);
                                 ("status", JStr "active");
                                 ("node_count", JInt 3);
                                 ("version", JStr "1.28")]) (Some 2) |}]
  else if String.eqb name "list_pods" then
    let namespace := default "default" (namespace arguments) in
    Ret [{| type_ := "text";
            text :=
              Dumps (JObj [("namespace", JStr namespace);
                           ("pods",
                             JList [JObj [("name", JStr "mcp-server-pod-1");
                                          ("status", JStr "Running")];
                                    JObj [("name", JStr "mcp-server-pod-2");
                                          ("status", JStr "Running")]])])
                    (Some 2) |}]
  else Raise (ValueError ("Unknown tool: " +:+ name)).

End Basic.

(** * [server-enhanced.py]: the catalogs *)

Module EnhancedCatalog.

Definition handle_list_resources : list Resource :=
  [{| uri := "resource://cluster-info";
      resource_name := "EKS Cluster Information";
      resource_description := "Real-time information about the EKS cluster";
      mimeType := "application/json" |};
   {| uri := "resource://node-info";
      resource_name := "Node Information";
      resource_description := "Information about cluster nodes";
      mimeType := "application/json" |};
   {| uri := "resource://health";
      resource_name := "Health Check";
      resource_description := "Server and cluster health status";
      mimeType := "application/json" |}].

Definition handle_list_tools : list Tool :=
  [{| tool_name := "get_cluster_status";
      tool_description := "Get the current status of the EKS cluster";
      inputSchema :=
        JObj [("type", JStr "object");
              ("properties",
                JObj [("include_nodes",
                        property_default "boolean" "Include node information"
                          (JBool false))])] |};
   {| tool_name := "list_pods";
      tool_description := "List pods in a specific namespace";
      inputSchema :=
        JObj [("type", JStr "object");
              ("properties",
                JObj [("namespace",
                        property_default "string" "Kubernetes namespace"
                          (JStr "default"));
                      ("show_status",
                        property_default "boolean"
                          "Include detailed pod status" (JBool true))])] |};
   {| tool_name := "get_deployments";
      tool_description := "List deployments in a namespace";
      inputSchema :=
        JObj [("type", JStr "object");
              ("properties",
                JObj [("namespace",
                        property_default "string" "Kubernetes namespace"
                          (JStr "default"))])] |}].

End EnhancedCatalog.

(** * [server-claude-bridge.py]: resources, tools and catalogs *)

Module BridgeTools.

Import Bridge.

Definition handle_list_resources : list Resource :=
  [{| uri := "resource://cluster-status";
      resource_name := "EKS Cluster Status";
      resource_description :=
        "Real-time status of your EKS cluster including nodes and health";
      mimeType := "application/json" |};
   {| uri := "resource://pod-status";
      resource_name := "Pod Status";
      resource_description := "Status of all pods across namespaces";
      mimeType := "application/json" |}].

(** [handle_read_resource(uri)]; the argument is [str(uri)].  There is no
    [try] around the body. *)
Definition handle_read_resource (uri : string) : M json_text :=
  if String.eqb uri "resource://cluster-status" then
    cluster_info ← call_mcp_api "/cluster-info";
    nodes ← call_mcp_api "/nodes";
    health ← call_mcp_api "/health";
    mret (Dumps (JObj [("cluster", JObj cluster_info);
                       ("nodes", JObj nodes);
                       ("health", JObj health)]) (Some 2))
  else if String.eqb uri "resource://pod-status" then
    mcp_pods ← call_mcp_api "/pods?namespace=mcp-server";
    default_pods ← call_mcp_api "/pods?namespace=default";
    karpenter_pods ← call_mcp_api "/pods?namespace=karpenter";
    mret (Dumps (JObj [("mcp_server", JObj mcp_pods);
                       ("default", JObj default_pods);
                       ("karpenter", JObj karpenter_pods)]) (Some 2))
  else py_raise (ValueError ("Unknown resource: " +:+ uri)).

Definition handle_list_tools : list Tool :=
  [{| tool_name := "check_cluster_health";
      tool_description := "Check the overall health of your EKS cluster";
      inputSchema :=
        JObj [("type", JStr "object"); ("properties", JObj [])] |};
   {| tool_name := "get_node_info";
      tool_description := "Get detailed information about cluster nodes";
      inputSchema :=
        JObj [("type", JStr "object");
              ("properties",
                JObj [("include_karpenter_only",
                        property_default "boolean"
                          "Show only Karpenter-managed nodes"
                          (JBool false))])] |};
   {| tool_name := "check_pods";
      tool_description := "Check the status of pods in a specific namespace";
      inputSchema :=
        JObj [("type", JStr "object");
              ("properties",
                JObj [("namespace",
                        property_default "string"
                          "Kubernetes namespace to check"
                          (JStr "mcp-server"))])] |};
   {| tool_name := "get_deployments";
      tool_description := "Get deployment status and replica information";
      inputSchema :=
        JObj [("type", JStr "object");
              ("properties",
                JObj [("namespace",
                        property_default "string"
                          "Kubernetes namespace to check"
                          (JStr "default"))])] |}].

(** The [arguments] dict, read through the keys that the schemas declare. *)
Record Arguments : Type := {
  include_karpenter_only : option bool;
  namespace : option string
}.

(** [[TextContent(type="text", text=response)]] *)
Definition text_reply (response : list frag) : list TextContent :=
  [{| type_ := "text"; text := response |}].

(** [len([n for n in nodes.get('nodes', []) if p(n)])] *)
Definition count_nodes (p : json → outcome bool)
    (nodes : list (string * json)) : outcome Z :=
  items ← json_iter (default (JList []) (dict_get "nodes" nodes));
  kept ← filterM p items;
  mret (Z.of_nat (length kept)).

(** [n.get('status') == 'Ready'] *)
Definition is_ready_node (n : json) : outcome bool :=
  status ← json_get n "status" JNull;
  mret (eq_str status "Ready").

(** The branch taken for [name == "check_cluster_health"]. *)
Definition check_cluster_health : M (list TextContent) :=
  health ← call_mcp_api "/health";
  cluster_info ← call_mcp_api "/cluster-info";
  nodes ← call_mcp_api "/nodes";
  if eq_str (default JNull (dict_get "status" health)) "healthy" then
    ready ← py_lift (count_nodes is_ready_node nodes);
    karpenter ← py_lift (count_nodes not_baseline nodes);
    mret (text_reply
      [Lit "✅ Your EKS cluster '";
       Fmt (default (JStr "unknown") (dict_get "cluster_name" cluster_info));
       Lit "' is healthy!"; Lit nl; Lit nl;
       Lit "🏗️ Cluster: ";
       Fmt (default JNull (dict_get "cluster_name" cluster_info));
       Lit " in "; Fmt (default JNull (dict_get "region" cluster_info));
       Lit nl;
       Lit "📊 Namespaces: ";
       Fmt (default (JInt 0) (dict_get "namespace_count" cluster_info));
       Lit nl;
       Lit "🖥️ Nodes: ";
       Fmt (default (JInt 0) (dict_get "node_count" nodes));
       Lit " total"; Lit nl;
       Lit "   • Ready nodes: "; Fmt (JInt ready); Lit nl;
       Lit "   • Karpenter nodes: "; Fmt (JInt karpenter); Lit nl; Lit nl;
       Lit "🔗 Kubernetes API: ";
       Fmt (default (JStr "unknown") (dict_get "kubernetes_api" health))])
  else
    mret (text_reply
      [Lit "❌ Cluster health check failed: ";
       Fmt (default (JStr "Unknown error") (dict_get "error" health))]).

(** The lines added to the response for one pod. *)
Definition pod_block (pod : json) : outcome (list frag) :=
  phase ← json_get pod "phase" JNull;
  healthy ←
    (if eq_str phase "Running"
     then ready ← json_get pod "ready" JNull; py_gt ready 0
     else mret false);
  let status_emoji := if healthy : bool then "✅" else "❌" in
  name ← json_get pod "name" (JStr "unknown");
  phase' ← json_get pod "phase" (JStr "unknown");
  ready' ← json_get pod "ready" (JInt 0);
  restarts ← json_get pod "restart_count" (JInt 0);
  mret [Lit status_emoji; Lit " "; Fmt name; Lit nl;
        Lit "   • Phase: "; Fmt phase'; Lit nl;
        Lit "   • Ready: "; Fmt ready'; Lit "/1"; Lit nl;
        Lit "   • Restarts: "; Fmt restarts; Lit nl; Lit nl].

(** The branch taken for [name == "check_pods"]. *)
Definition check_pods (arguments : Arguments) : M (list TextContent) :=
  let namespace := default "mcp-server" (namespace arguments) in
  pods ← call_mcp_api ("/pods?namespace=" +:+ namespace);
  match dict_get "error" pods with
  | Some err =>
      mret (text_reply [Lit "❌ Error checking pods in ";
                        Fmt (JStr namespace); Lit ": "; Fmt err])
  | None =>
      let pod_count := default (JInt 0) (dict_get "pod_count" pods) in
      let pod_list := default (JList []) (dict_get "pods" pods) in
      let response :=
        [Lit "🐳 Pods in '"; Fmt (JStr namespace); Lit "' namespace: ";
         Fmt pod_count; Lit " total"; Lit nl; Lit nl] in
      if py_eq pod_count (JInt 0) then
        mret (text_reply
                (response ++ [Lit "No pods found in this namespace."]))
      else
        blocks ← py_lift (json_iter pod_list ≫= mapM pod_block);
        mret (text_reply (response ++ concat blocks))
  end.

(** The lines added to the response for one deployment. *)
Definition deployment_block (deployment : json) : outcome (list frag) :=
  replicas ← json_get deployment "replicas" (JInt 0);
  ready ← json_get deployment "ready_replicas" (JInt 0);
  available ← json_get deployment "available_replicas" (JInt 0);
  let status_emoji :=
    if py_eq ready replicas && py_eq available replicas then "✅" else "⚠️" in
  name ← json_get deployment "name" (JStr "unknown");
  mret [Lit status_emoji; Lit " "; Fmt name; Lit nl;
        Lit "   • Desired: "; Fmt replicas; Lit nl;
        Lit "   • Ready: "; Fmt ready; Lit nl;
        Lit "   • Available: "; Fmt available; Lit nl; Lit nl].

(** The branch taken for [name == "get_deployments"]. *)
Definition get_deployments (arguments : Arguments) : M (list TextContent) :=
  let namespace := default "default" (namespace arguments) in
  deployments ← call_mcp_api ("/deployments?namespace=" +:+ namespace);
  match dict_get "error" deployments with
  | Some err =>
      mret (text_reply [Lit "❌ Error getting deployments in ";
                        Fmt (JStr namespace); Lit ": "; Fmt err])
  | None =>
      let deployment_count :=
        default (JInt 0) (dict_get "deployment_count" deployments) in
      let deployment_list :=
        default (JList []) (dict_get "deployments" deployments) in
      let response :=
        [Lit "🚀 Deployments in '"; Fmt (JStr namespace);
         Lit "' namespace: "; Fmt deployment_count; Lit " total";
         Lit nl; Lit nl] in
      if py_eq deployment_count (JInt 0) then
        mret (text_reply
                (response ++ [Lit "No deployments found in this namespace."]))
      else
        blocks ←
          py_lift (json_iter deployment_list ≫= mapM deployment_block);
        mret (text_reply (response ++ concat blocks))
  end.

Definition handle_call_tool (name : string) (arguments : Arguments)
    : M (list TextContent) :=
  if String.eqb name "check_cluster_health" then check_cluster_health
  else if String.eqb name "get_node_info" then
    get_node_info
      {| Bridge.include_karpenter_only := include_karpenter_only arguments |}
  else if String.eqb name "check_pods" then check_pods arguments
  else if String.eqb name "get_deployments" then get_deployments arguments
  else mret (text_reply [Lit "❌ Unknown tool: "; Fmt (JStr name)]).

End BridgeTools.

(** * [production-value-analysis.py]: the split of the node listing *)

Module Analysis.

(** [[n for n in nodes['nodes'] if n['instance_type'] == 't3.medium']] *)
Definition managed_nodes (nodes : json) : outcome (list json) :=
  items ← py_subscript nodes "nodes" ≫= Bridge.json_iter;
  filterM (λ n, it ← py_subscript n "instance_type";
                mret (Bridge.eq_str it "t3.medium")) items.

(** [[n for n in nodes['nodes'] if n['instance_type'] != 't3.medium']] *)
Definition karpenter_nodes (nodes : json) : outcome (list json) :=
  items ← py_subscript nodes "nodes" ≫= Bridge.json_iter;
  filterM (λ n, it ← py_subscript n "instance_type";
                mret (Bridge.ne_str it "t3.medium")) items.

End Analysis.

(** * [server-simple.py]: [do_GET] from the request target *)

Module SimpleRaw.

(** The handler before its target is parsed: the two attributes that logging
    reads, and what [urlparse(self.path)] followed by [parse_qs] gives, the
    path and the query dict, or the exception that parsing raises (a
    [ValueError] for a target with an unclosed IPv6 bracket).  Both calls
    lie inside the [try] of [do_GET]. *)
Record Handler : Type := {
  address_string : string;
  requestline : string;
  parsed : outcome (string * gmap string (list string))
}.

(** The handler with a parsed target. *)
Definition request_of (self : Handler)
    (target : string * gmap string (list string)) : Simple.Request :=
  {| Simple.address_string := address_string self;
     Simple.requestline := requestline self;
     Simple.path := target.1;
     Simple.query_params := target.2 |}.

(** [do_GET].  [send_error] reads the two logging attributes only, so the
    [except] clause runs it on the handler with an empty target. *)
Definition do_GET (self : Handler) : Simple.M unit :=
  try_except
    (target ← py_lift (parsed self);
     let self' := request_of self target in
     if String.eqb (Simple.path self') "/health"
     then Simple.handle_health self'
     else if String.eqb (Simple.path self') "/cluster-info"
          then Simple.handle_cluster_info self'
     else if String.eqb (Simple.path self') "/nodes"
          then Simple.handle_nodes self'
     else if String.eqb (Simple.path self') "/pods"
          then namespace ← Simple.namespace_param self';
               Simple.handle_pods self' namespace
     else if String.eqb (Simple.path self') "/deployments"
          then namespace ← Simple.namespace_param self';
               Simple.handle_deployments self' namespace
     else Simple.send_error self' 404 "Not Found")
    (λ e,
     Simple.logger_error ("Error handling request: " +:+ str_exn e);;
     Simple.send_error (request_of self (EmptyString, ∅)) 500 (str_exn e)).

End SimpleRaw.

(** * Vocabulary of the statements *)

(** The request handler returned normally and wrote exactly one response,
    with status [code] and JSON body [body]. *)
Definition answers (r : outcome unit * Simple.St) (code : Z) (body : json)
    : Prop :=
  r.1 = Ret tt ∧
  Simple.sent_status (Simple.wfile r.2) = [code] ∧
  Simple.sent_json (Simple.wfile r.2) = [body].

(** A listing: the items under [items_key] form a sequence and the integer
    under [count_key] is its length. *)
Definition is_listing (count_key items_key : string) (body : json) : Prop :=
  ∃ items, json_field items_key body = Some (JList items) ∧
           json_field count_key body = Some (JInt (Z.of_nat (length items))).

(** An error-shaped body: [{"error": msg}] and nothing else. *)
Definition is_error (body : json) : Prop := ∃ msg, body = error_body msg.

(** A HealthStatus for a given outcome of the probe. *)
Definition health_status {A} (probe : outcome A) (body : json) : Prop :=
  match probe with
  | Ret _ =>
      json_field "status" body = Some (JStr "healthy") ∧
      json_field "kubernetes_api" body = Some (JStr "accessible") ∧
      json_field "error" body = None
  | Raise e =>
      json_field "status" body = Some (JStr "unhealthy") ∧
      json_field "kubernetes_api" body = Some (JStr "inaccessible") ∧
      json_field "error" body = Some (JStr (str_exn e))
  end.

(** The header [Access-Control-Allow-Origin: *] is among those sent. *)
Definition has_cors (w : list Simple.out) : bool :=
  existsb (λ kv, match kv with
                 | (k, Simple.HLit v) =>
                     String.eqb k "Access-Control-Allow-Origin"
                     && String.eqb v "*"
                 | _ => false
                 end)
          (Simple.sent_headers w).

(** The requests that [do_GET] hands to one of the five handlers: the path
    is one of theirs and, for the two namespace-scoped ones, the namespace
    parameter can be read. *)
Definition routed (self : Simple.Request) : bool :=
  let p := Simple.path self in
  String.eqb p "/health" || String.eqb p "/cluster-info"
  || String.eqb p "/nodes"
  || ((String.eqb p "/pods" || String.eqb p "/deployments")
      && bool_decide (default ["default"]
                        (Simple.query_params self !! "namespace") ≠ [])).

(** What is written, the value of the [Date] header apart. *)
Definition undated (w : list Simple.out) : list Simple.out :=
  (λ o, match o with
        | Simple.Header k (Simple.HDate _) =>
            Simple.Header k (Simple.HDate EmptyString)
        | _ => o
        end) <$> w.

(** The handler answers through [send_json_response], exactly once. *)
Definition sends (self : Simple.Request) (h : Simple.M unit) : Prop :=
  ∀ s, ∃ code body, h s = Simple.send_json_response self body code s.

(** Two process states that a request cannot tell apart: the cluster and
    the configuration are the same, and so is what has been written so far,
    dates apart.  The clock and the log are free. *)
Definition same_view (s1 s2 : Simple.St) : Prop :=
  Simple.cluster s1 = Simple.cluster s2 ∧
  Simple.environ s1 = Simple.environ s2 ∧
  undated (Simple.wfile s1) = undated (Simple.wfile s2).

(** A computation respects a relation on states when, run from related
    states, it has the same outcome and ends in related states. *)
Definition respects {S A} (R : S → S → Prop) (m : Py S A) : Prop :=
  ∀ s1 s2, R s1 s2 → (m s1).1 = (m s2).1 ∧ R (m s1).2 (m s2).2.

(** A computation keeps a function of the state when the function has the
    same value before and after. *)
Definition keeps {S A V} (v : S → V) (m : Py S A) : Prop :=
  ∀ s, v (m s).2 = v s.

(** What a request reads of the process: the cluster and the configuration. *)
Definition inputs (s : Simple.St) : Cluster * gmap string string :=
  (Simple.cluster s, Simple.environ s).

(** A JSON object. *)
Definition is_object (v : json) : Prop := ∃ o, v = JObj o.

(** The node's instance type is not the baseline type of the bridge. *)
Definition off_baseline (n : json) : Prop :=
  json_field "instance_type" n ≠ Some (JStr "t3.medium").

(** A resource text, or the single text of a tool reply, that holds a
    listing or an error body. *)
Definition listing_text (count_key items_key : string)
    (r : outcome json_text * Enhanced.St) : Prop :=
  ∃ body i, r.1 = Ret (Dumps body i) ∧
            (is_listing count_key items_key body ∨ is_error body).

Definition listing_tool (count_key items_key : string)
    (r : outcome (list Enhanced.TextContent) * Enhanced.St) : Prop :=
  ∃ body i,
    r.1 = Ret [{| Enhanced.type_ := "text"; Enhanced.text := Dumps body i |}] ∧
    (is_listing count_key items_key body ∨ is_error body).

(** Two states of the enhanced server with the same cluster and the same
    configuration; the log is free. *)
Definition same_inputs (t1 t2 : Enhanced.St) : Prop :=
  Enhanced.cluster t1 = Enhanced.cluster t2 ∧
  Enhanced.environ t1 = Enhanced.environ t2.

(** The test of a comprehension returned [True]. *)
Definition holds (o : outcome bool) : bool :=
  match o with Ret true => true | _ => false end.

(** The bodies written, JSON or not. *)
Definition sent_bodies (w : list Simple.out) : list Simple.payload :=
  omap (λ o, match o with Simple.Body p => Some p | _ => None end) w.

(** The paths that [do_GET] recognizes. *)
Definition endpoints : list string :=
  ["/health"; "/cluster-info"; "/nodes"; "/pods"; "/deployments"].

(** The record that [log_request] emits for a response with status [code]. *)
Definition request_record (self : Simple.Request) (code : Z) : LogRecord :=
  {| lvl := INFO;
     text := Simple.address_string self +:+ " - " +:+ Simple.dquote
             +:+ Simple.requestline self +:+ Simple.dquote +:+ " "
             +:+ pretty code +:+ " -" |}.

(** A node record that carries both a labels dict and a conditions list. *)
Definition summarisable (node : V1Node) : Prop :=
  is_Some (labels (node_metadata node)) ∧
  is_Some (node_conditions (node_status node)).

(** What [call_mcp_api] hands back for an endpoint: the dict of the API, or
    the error dict made of the exception. *)
Definition api_or_error (s : Bridge.St) (endpoint : string)
    : list (string * json) :=
  match Bridge.api s endpoint with
  | Ret d => d
  | Raise e => [("error", JStr (str_exn e))]
  end.

(** A cluster in which every read call returns and every node can be
    summarised. *)
Definition answering (c : Cluster) : Prop :=
  (∀ limit, ∃ l, list_namespace c limit = Ret l) ∧
  (∃ nodes, list_node c = Ret nodes ∧ Forall summarisable nodes) ∧
  (∀ ns, ∃ l, list_namespaced_pod c ns = Ret l) ∧
  (∀ ns, ∃ l, list_namespaced_deployment c ns = Ret l).

(** Reading a declared default as a boolean or as a string. *)
Definition as_bool (v : json) : option bool :=
  match v with JBool b => Some b | _ => None end.

Definition as_str (v : json) : option string :=
  match v with JStr s => Some s | _ => None end.

(** [x] when it is given, [dflt] otherwise. *)
Definition or_else {A} (x dflt : option A) : option A :=
  match x with Some _ => x | None => dflt end.

(** The arguments of a tool call with every omitted key filled in from the
    defaults that the tool's input schema declares, per variant. *)
Definition fill_basic (tool : Tool) (a : Basic.Arguments) : Basic.Arguments :=
  {| Basic.cluster_name :=
       or_else (Basic.cluster_name a)
               (declared_default tool "cluster_name" ≫= as_str);
     Basic.namespace :=
       or_else (Basic.namespace a)
               (declared_default tool "namespace" ≫= as_str) |}.

Definition fill_enhanced (tool : Tool) (a : Enhanced.Arguments)
    : Enhanced.Arguments :=
  {| Enhanced.include_nodes :=
       or_else (Enhanced.include_nodes a)
               (declared_default tool "include_nodes" ≫= as_bool);
     Enhanced.namespace :=
       or_else (Enhanced.namespace a)
               (declared_default tool "namespace" ≫= as_str);
     Enhanced.show_status :=
       or_else (Enhanced.show_status a)
               (declared_default tool "show_status" ≫= as_bool) |}.

Definition fill_bridge (tool : Tool) (a : BridgeTools.Arguments)
    : BridgeTools.Arguments :=
  {| BridgeTools.include_karpenter_only :=
       or_else (BridgeTools.include_karpenter_only a)
               (declared_default tool "include_karpenter_only" ≫= as_bool);
     BridgeTools.namespace :=
       or_else (BridgeTools.namespace a)
               (declared_default tool "namespace" ≫= as_str) |}.

(** The single text of a tool reply of the enhanced variant. *)
Definition tool_text (body : json) : list Enhanced.TextContent :=
  [{| Enhanced.type_ := "text"; Enhanced.text := Dumps body (Some 2) |}].

(** The reply of the bridge to a tool name it does not know. *)
Definition unknown_tool_reply (name : string) : list Bridge.TextContent :=
  BridgeTools.text_reply
    [Bridge.Lit "❌ Unknown tool: "; Bridge.Fmt (JStr name)].

(** The handler answers through [send_json_response] with 200 or 500. *)
Definition sends_200_or_500 (self : Simple.Request) (h : Simple.M unit)
    : Prop :=
  ∀ s, ∃ code body,
    h s = Simple.send_json_response self body code s ∧
    (code = 200 ∨ code = 500).

(** The state of the bridge after [call_mcp_api(endpoint)]: one ERROR record
    more when the call failed, the same state otherwise. *)
Definition after_call (s : Bridge.St) (endpoint : string) : Bridge.St :=
  match Bridge.api s endpoint with
  | Ret _ => s
  | Raise e =>
      Bridge.log_add
        {| lvl := ERROR;
           text := "Error calling MCP API " +:+ endpoint +:+ ": "
                   +:+ str_exn e |} s
  end.

(** The literal that a formatted text starts with. *)
Definition first_literal (block : list Bridge.frag) : option string :=
  match block with
  | Bridge.Lit s :: _ => Some s
  | _ => None
  end.

(** * Sample data *)

Definition meta (n : string) (l : list (string * string)) : V1ObjectMeta :=
  {| name := n; labels := Some (list_to_map l) |}.

Definition ready_true : V1Condition :=
  {| ctype := "Ready"; cstatus := "True" |}.
Definition ready_false : V1Condition :=
  {| ctype := "Ready"; cstatus := "False" |}.

Definition node_static : V1Node :=
  {| node_metadata :=
       meta "ip-10-0-1-10"
         [("node.kubernetes.io/instance-type", "t3.medium");
          ("topology.kubernetes.io/zone", "us-east-1a")];
     node_status := {| node_conditions := Some [ready_true] |} |}.

Definition node_dynamic : V1Node :=
  {| node_metadata :=
       meta "ip-10-0-2-20" [("node.kubernetes.io/instance-type", "m5.large")];
     node_status := {| node_conditions := Some [ready_false] |} |}.

(** A node that has not reported any condition yet. *)
Definition node_fresh : V1Node :=
  {| node_metadata :=
       meta "ip-10-0-3-30" [("node.kubernetes.io/instance-type", "c5.xlarge")];
     node_status := {| node_conditions := None |} |}.

Definition pod_web : V1Pod :=
  {| pod_metadata := meta "web-0" [];
     pod_status :=
       {| phase := Some "Running";
          pod_conditions := Some [ready_true];
          container_statuses :=
            Some [ {| restart_count := Some 2 |}; {| restart_count := None |} ]
       |} |}.

(** A pod that has not reported any condition or container status yet. *)
Definition pod_fresh : V1Pod :=
  {| pod_metadata := meta "job-1" [];
     pod_status :=
       {| phase := Some "Pending"; pod_conditions := None;
          container_statuses := None |} |}.

(** Three replicas wanted, two of them ready, [available_replicas] unset. *)
Definition deployment_api : V1Deployment :=
  {| dep_metadata := meta "api" [];
     dep_spec := {| replicas := Some 3 |};
     dep_status :=
       {| ready_replicas := Some 2; available_replicas := None |} |}.

Definition not_found : exn :=
  ApiException (Some 404) "Not Found" "(404) Reason: Not Found".

(** A cluster with three namespaces, of which [default] is empty and
    [mcp-server] runs one pod; any other namespace does not exist. *)
Definition sample_cluster (nodes : list V1Node) : Cluster :=
  {| list_namespace := λ _,
       Ret ((λ n, {| ns_metadata := meta n [] |})
              <$> ["default"; "kube-system"; "mcp-server"]);
     list_node := Ret nodes;
     list_namespaced_pod := λ ns,
       if String.eqb ns "default" then Ret []
       else if String.eqb ns "mcp-server" then Ret [pod_web]
       else Raise not_found;
     list_namespaced_deployment := λ ns,
       if String.eqb ns "default" || String.eqb ns "mcp-server" then Ret []
       else Raise not_found |}.

(** A cluster whose API cannot be reached. *)
Definition unreachable_cluster : Cluster :=
  {| list_namespace := λ _, Raise (OtherException "Read timed out.");
     list_node := Raise (OtherException "Read timed out.");
     list_namespaced_pod := λ _, Raise (OtherException "Read timed out.");
     list_namespaced_deployment := λ _,
       Raise (OtherException "Read timed out.") |}.

Definition sample_state (c : Cluster) : Simple.St :=
  {| Simple.cluster := c; Simple.environ := ∅;
     Simple.clock := "Thu, 01 Jan 2026 00:00:00 GMT";
     Simple.logged := []; Simple.wfile := [] |}.

Definition sample_request (p : string) (ns : option string) : Simple.Request :=
  {| Simple.address_string := "10.0.0.7";
     Simple.requestline := "GET " +:+ p +:+ " HTTP/1.1";
     Simple.path := p;
     Simple.query_params :=
       match ns with
       | Some n => {[ "namespace" := [n] ]}
       | None => ∅
       end |}.

Definition sample_enhanced (c : Cluster) : Enhanced.St :=
  {| Enhanced.cluster := c; Enhanced.environ := ∅; Enhanced.logged := [] |}.

(** The URIs that [handle_read_resource] of [server-enhanced.py] knows. *)
Definition known_uris : list string :=
  ["resource://cluster-info"; "resource://node-info"; "resource://health"].

(** The body of [GET /nodes] for the two sample nodes. *)
Definition sample_nodes_body : list (string * json) :=
  [("node_count", JInt 2);
   ("nodes",
     JList [JObj [("name", JStr "ip-10-0-1-10"); ("status", JStr "Ready");
                  ("instance_type", JStr "t3.medium");
                  ("zone", JStr "us-east-1a")];
            JObj [("name", JStr "ip-10-0-2-20"); ("status", JStr "NotReady");
                  ("instance_type", JStr "m5.large");
                  ("zone", JStr "unknown")]])].

(** A cluster in which every namespace exists and is empty. *)
Definition open_cluster (nodes : list V1Node) : Cluster :=
  {| list_namespace := λ _, Ret [{| ns_metadata := meta "default" [] |}];
     list_node := Ret nodes;
     list_namespaced_pod := λ _, Ret [];
     list_namespaced_deployment := λ _, Ret [] |}.

(** A request whose target [urlparse] refuses, and one it accepts. *)
Definition unparseable_request : SimpleRaw.Handler :=
  {| SimpleRaw.address_string := "10.0.0.7";
     SimpleRaw.requestline := "GET http://[ HTTP/1.1";
     SimpleRaw.parsed := Raise (ValueError "Invalid IPv6 URL") |}.

Definition parsed_request (p : string) (ns : option string)
    : SimpleRaw.Handler :=
  {| SimpleRaw.address_string := "10.0.0.7";
     SimpleRaw.requestline := "GET " +:+ p +:+ " HTTP/1.1";
     SimpleRaw.parsed :=
       Ret (p, match ns with
               | Some n => {[ "namespace" := [n] ]}
               | None => ∅
               end) |}.

(** An HTTP API that answers every endpoint with the same dict, and one that
    cannot be reached. *)
Definition sample_api (d : list (string * json)) : Bridge.St :=
  {| Bridge.api := λ _, Ret d; Bridge.logged := [] |}.

Definition unreachable_api : Bridge.St :=
  {| Bridge.api := λ _, Raise (OtherException "Connection refused");
     Bridge.logged := [] |}.

(** * Proofs *)

(** ** Running computations *)

Ltac py_unfold :=
  unfold mbind, mret, py_mbind, py_mret, py_bind, py_ret, try_except,
    py_raise, py_modify, py_gets, py_lift,
    outcome_bind, outcome_ret in *.

Section outcome_lists.
Context {A B : Type}.

Lemma mapM_Ret_length (f : A → outcome B) (l : list A) (k : list B) :
  mapM f l = Ret k → length k = length l.
Proof.
  revert k. induction l as [|x l IH]; intros k; cbn.
  - intros [= <-]. reflexivity.
  - py_unfold. destruct (f x); [|discriminate].
    destruct (mapM f l) as [k'|] eqn:E; [|discriminate].
    intros [= <-]. cbn. f_equal. apply IH. reflexivity.
Qed.

Lemma mapM_Ret_total (f : A → outcome B) (l : list A) :
  Forall (λ x, ∃ y, f x = Ret y) l → ∃ k, mapM f l = Ret k.
Proof.
  induction 1 as [|x l [y Hy] _ [k Hk]]; cbn.
  - eexists. reflexivity.
  - py_unfold. rewrite Hy, Hk. eexists. reflexivity.
Qed.

Lemma filterM_sublist (p : A → outcome bool) (l k : list A) :
  filterM p l = Ret k → sublist k l.
Proof.
  revert k. induction l as [|x l IH]; intros k; cbn.
  - intros [= <-]. constructor.
  - py_unfold. destruct (p x) as [keep|]; [|discriminate].
    destruct (filterM p l) as [k'|]; [|discriminate].
    intros [= <-]. destruct keep; constructor; apply IH; reflexivity.
Qed.

Lemma filterM_Forall (p : A → outcome bool) (l k : list A) :
  filterM p l = Ret k → Forall (λ x, p x = Ret true) k.
Proof.
  revert k. induction l as [|x l IH]; intros k; cbn.
  - intros [= <-]. constructor.
  - py_unfold. destruct (p x) as [keep|] eqn:E; [|discriminate].
    destruct (filterM p l) as [k'|]; [|discriminate].
    intros [= <-]. destruct keep; [constructor; [assumption|]|]; apply IH;
      reflexivity.
Qed.

Lemma filterM_Ret_total (p : A → outcome bool) (l : list A) :
  Forall (λ x, ∃ b, p x = Ret b) l →
  filterM p l = Ret (filter (λ x, holds (p x)) l).
Proof.
  induction 1 as [|x l [b Hb] _ IH]; [reflexivity|].
  rewrite filter_cons. cbn [filterM]. py_unfold. rewrite Hb, IH.
  destruct b; reflexivity.
Qed.
End outcome_lists.

(** ** [server-simple.py] *)

(** [send_json_response] always returns, and appends one complete response
    to the stream. *)
Lemma send_json_response_run self data status s :
  ∃ s', Simple.send_json_response self data status s = (Ret tt, s') ∧
        Simple.cluster s' = Simple.cluster s ∧
        Simple.environ s' = Simple.environ s ∧
        Simple.clock s' = Simple.clock s ∧
        Simple.wfile s' = Simple.wfile s ++
          [Simple.StatusLine status
             (default EmptyString (fst <$> Simple.responses status));
           Simple.Header "Server" Simple.HVersion;
           Simple.Header "Date" (Simple.HDate (Simple.clock s));
           Simple.Header "Content-type" (Simple.HLit "application/json");
           Simple.Header "Access-Control-Allow-Origin" (Simple.HLit "*");
           Simple.EndHeaders;
           Simple.Body (Simple.JsonBytes (Dumps data (Some 2)))].
Proof.
  eexists. split; [reflexivity|]. cbn. repeat split.
  rewrite <- !app_assoc. reflexivity.
Qed.

Lemma send_json_response_answers self data status s :
  answers (Simple.send_json_response self data status (Simple.connect s))
    status data.
Proof. repeat split. Qed.

Ltac run_handler :=
  unfold Simple.handle_health, Simple.handle_cluster_info,
    Simple.handle_nodes, Simple.handle_pods, Simple.handle_deployments,
    Simple.v1_list_namespace, Simple.v1_list_node,
    Simple.v1_list_namespaced_pod, Simple.apps_v1_list_namespaced_deployment,
    Simple.os_getenv;
  py_unfold; cbn [Simple.connect Simple.cluster Simple.environ].

(** Claim C7.  When the namespace exists and holds no pod (the client
    returns an empty sequence), [handle_pods] answers with status 200 and
    the body [{"namespace": ns, "pod_count": 0, "pods": []}]: an empty
    listing that still names the requested namespace, not an error. *)
Theorem empty_namespace_is_not_an_error self ns s :
  list_namespaced_pod (Simple.cluster s) ns = Ret [] →
  answers (Simple.handle_pods self ns (Simple.connect s)) 200
    (JObj [("namespace", JStr ns); ("pod_count", JInt 0); ("pods", JList [])]).
Proof.
  intros H. run_handler. rewrite H. apply send_json_response_answers.
Qed.

Lemma empty_namespace_is_not_an_error_witness :
  answers
    (Simple.handle_pods (sample_request "/pods" (Some "default")) "default"
       (Simple.connect (sample_state (sample_cluster [node_static]))))
    200
    (JObj [("namespace", JStr "default"); ("pod_count", JInt 0);
           ("pods", JList [])]).
Proof.
  apply (empty_namespace_is_not_an_error
           (sample_request "/pods" (Some "default")) "default"
           (sample_state (sample_cluster [node_static]))).
  reflexivity.
Defined.

Lemma not_found_is_not_api_error ns reason :
  error_body (not_found_msg ns) ≠ error_body (api_error_msg reason).
Proof. discriminate. Qed.

Lemma api_exception_body_404 ns reason :
  api_exception_body ns (Some 404) reason = error_body (not_found_msg ns).
Proof. reflexivity. Qed.

Lemma api_exception_body_is_error ns status reason :
  is_error (api_exception_body ns status reason).
Proof.
  unfold api_exception_body. case_bool_decide; eexists; reflexivity.
Qed.

(** Claim C3.  When the upstream call of a namespace-scoped query fails
    with HTTP status 404, [handle_pods] and [handle_deployments] answer with
    the body [{"error": "Namespace '<ns>' not found"}], which names the
    namespace, and that body is never the generic
    [{"error": "API error: <reason>"}] used for the other API failures. *)
Theorem missing_namespace_is_not_found self ns s r1 x1 r2 x2 :
  list_namespaced_pod (Simple.cluster s) ns
    = Raise (ApiException (Some 404) r1 x1) →
  list_namespaced_deployment (Simple.cluster s) ns
    = Raise (ApiException (Some 404) r2 x2) →
  answers (Simple.handle_pods self ns (Simple.connect s)) 500
    (JObj [("error", JStr ("Namespace '" +:+ ns +:+ "' not found"))]) ∧
  answers (Simple.handle_deployments self ns (Simple.connect s)) 500
    (JObj [("error", JStr ("Namespace '" +:+ ns +:+ "' not found"))]) ∧
  ∀ reason,
    JObj [("error", JStr ("Namespace '" +:+ ns +:+ "' not found"))]
    ≠ JObj [("error", JStr ("API error: " +:+ reason))].
Proof.
  intros Hp Hd. split; [|split].
  - run_handler. rewrite Hp. apply send_json_response_answers.
  - run_handler. rewrite Hd. apply send_json_response_answers.
  - intros reason. apply not_found_is_not_api_error.
Qed.

Lemma missing_namespace_is_not_found_witness :
  answers (Simple.handle_pods (sample_request "/pods" (Some "ghost")) "ghost"
             (Simple.connect (sample_state (sample_cluster [])))) 500
    (JObj [("error", JStr "Namespace 'ghost' not found")]) ∧
  answers (Simple.handle_deployments (sample_request "/pods" (Some "ghost"))
             "ghost" (Simple.connect (sample_state (sample_cluster [])))) 500
    (JObj [("error", JStr "Namespace 'ghost' not found")]) ∧
  ∀ reason,
    JObj [("error", JStr "Namespace 'ghost' not found")]
    ≠ JObj [("error", JStr ("API error: " +:+ reason))].
Proof.
  apply (missing_namespace_is_not_found
           (sample_request "/pods" (Some "ghost")) "ghost"
           (sample_state (sample_cluster []))
           "Not Found" "(404) Reason: Not Found"
           "Not Found" "(404) Reason: Not Found"); reflexivity.
Defined.

(** Every failure of the upstream call is answered with an error body. *)
Lemma handle_pods_failure self ns s e :
  list_namespaced_pod (Simple.cluster s) ns = Raise e →
  ∃ body, answers (Simple.handle_pods self ns (Simple.connect s)) 500 body ∧
          is_error body ∧
          ∀ reason text, e = ApiException (Some 404) reason text →
                         body = error_body (not_found_msg ns).
Proof.
  intros H. run_handler. rewrite H.
  destruct e as [st reason text| | | | |];
    (eexists; split; [apply send_json_response_answers|]; split;
     [first [apply api_exception_body_is_error | eexists; reflexivity]
     |intros ? ? [=]; subst; reflexivity]).
Qed.

Lemma handle_deployments_failure self ns s e :
  list_namespaced_deployment (Simple.cluster s) ns = Raise e →
  ∃ body,
    answers (Simple.handle_deployments self ns (Simple.connect s)) 500 body ∧
    is_error body ∧
    ∀ reason text, e = ApiException (Some 404) reason text →
                   body = error_body (not_found_msg ns).
Proof.
  intros H. run_handler. rewrite H.
  destruct e as [st reason text| | | | |];
    (eexists; split; [apply send_json_response_answers|]; split;
     [first [apply api_exception_body_is_error | eexists; reflexivity]
     |intros ? ? [=]; subst; reflexivity]).
Qed.

(** The five handlers return normally, whatever the cluster answers. *)
Lemma handle_health_returns self s : (Simple.handle_health self s).1 = Ret tt.
Proof.
  run_handler. destruct (list_namespace (Simple.cluster s) (Some 1));
    reflexivity.
Qed.

Lemma handle_cluster_info_returns self s :
  (Simple.handle_cluster_info self s).1 = Ret tt.
Proof.
  run_handler. destruct (list_namespace (Simple.cluster s) None); reflexivity.
Qed.

Lemma handle_nodes_returns self s : (Simple.handle_nodes self s).1 = Ret tt.
Proof.
  run_handler. destruct (list_node (Simple.cluster s)) as [nodes|];
    [destruct (mapM node_info_entry nodes)|]; reflexivity.
Qed.

Lemma handle_pods_returns self ns s :
  (Simple.handle_pods self ns s).1 = Ret tt.
Proof.
  run_handler.
  destruct (list_namespaced_pod (Simple.cluster s) ns) as [|[]]; reflexivity.
Qed.

Lemma handle_deployments_returns self ns s :
  (Simple.handle_deployments self ns s).1 = Ret tt.
Proof.
  run_handler.
  destruct (list_namespaced_deployment (Simple.cluster s) ns) as [|[]];
    reflexivity.
Qed.

Lemma mret_bind {S A B} (a : A) (f : A → Py S B) s :
  (mret a ≫= f) s = f a s.
Proof. reflexivity. Qed.

(** [try: m except ...] is [m] when [m] returns. *)
Lemma try_except_returns {S A} (m : Py S A) h s a :
  (m s).1 = Ret a → try_except m h s = m s.
Proof.
  unfold try_except. destruct (m s) as [[a'|e] s']; cbn; congruence.
Qed.





Ltac run_enhanced :=
  unfold Enhanced.handle_read_resource, Enhanced.handle_call_tool,
    Enhanced.v1_list_namespace, Enhanced.v1_list_node,
    Enhanced.v1_list_namespaced_pod,
    Enhanced.apps_v1_list_namespaced_deployment, Enhanced.os_getenv,
    Enhanced.logger_error, Enhanced.except_api_exception,
    Enhanced.json_dumps, Enhanced.json_dumps_indent2;
  py_unfold; cbn [String.eqb Ascii.eqb Bool.eqb].

(** ** Sample runs *)

Example cluster_info_sample :
  Simple.sent_json
    (Simple.wfile
       (Simple.serve (sample_request "/cluster-info" None)
          (sample_state (sample_cluster []))).2)
  = [JObj [("cluster_name", JStr "mcp-eks-cluster");
           ("region", JStr "us-east-1");
           ("namespace_count", JInt 3);
           ("namespaces",
             JList [JStr "default"; JStr "kube-system"; JStr "mcp-server"])]].
Proof. reflexivity. Qed.

Example nodes_sample :
  Simple.sent_json
    (Simple.wfile
       (Simple.serve (sample_request "/nodes" None)
          (sample_state (sample_cluster [node_static; node_dynamic]))).2)
  = [JObj sample_nodes_body].
Proof. reflexivity. Qed.

Example pods_sample :
  Simple.sent_json
    (Simple.wfile
       (Simple.serve (sample_request "/pods" (Some "mcp-server"))
          (sample_state (sample_cluster []))).2)
  = [JObj [("namespace", JStr "mcp-server");
           ("pod_count", JInt 1);
           ("pods",
             JList [JObj [("name", JStr "web-0");
                          ("phase", JStr "Running");
                          ("ready", JInt 1);
                          ("restart_count", JInt 2)]])]].
Proof. reflexivity. Qed.

Example deployment_sample :
  deployment_info deployment_api
  = JObj [("name", JStr "api"); ("replicas", JInt 3);
          ("ready_replicas", JInt 2); ("available_replicas", JInt 0)].
Proof. reflexivity. Qed.

Example health_unreachable_sample :
  let r := Simple.serve (sample_request "/health" None)
             (sample_state unreachable_cluster) in
  Simple.sent_status (Simple.wfile r.2) = [500] ∧
  Simple.sent_json (Simple.wfile r.2)
  = [JObj [("status", JStr "unhealthy");
           ("kubernetes_api", JStr "inaccessible");
           ("error", JStr "Read timed out.")]].
Proof. split; reflexivity. Qed.

Example not_found_page_sample :
  Simple.wfile
    (Simple.serve (sample_request "/nope" None)
       (sample_state (sample_cluster []))).2
  = [Simple.StatusLine 404 "Not Found";
     Simple.Header "Server" Simple.HVersion;
     Simple.Header "Date" (Simple.HDate "Thu, 01 Jan 2026 00:00:00 GMT");
     Simple.Header "Connection" (Simple.HLit "close");
     Simple.Header "Content-Type" (Simple.HLit "text/html;charset=utf-8");
     Simple.Header "Content-Length"
       (Simple.HLength
          (Simple.ErrorPage 404 "Not Found" "Nothing matches the given URI"));
     Simple.EndHeaders;
     Simple.Body
       (Simple.ErrorPage 404 "Not Found" "Nothing matches the given URI")].
Proof. reflexivity. Qed.

(** Claim C2.  The health query never raises.  Whatever the probe
    [list_namespace(limit=1)] does, [handle_health] returns and writes one
    HealthStatus body: [healthy] with status 200 when the probe returned,
    [unhealthy] with the text of the exception and status 500 when it
    raised.  The [resource://health] branch of the enhanced variant returns
    the same two shapes as text. *)
Theorem health_never_raises (self : Simple.Request) (s : Simple.St)
    (t : Enhanced.St) :
  (∃ body,
     answers (Simple.handle_health self (Simple.connect s))
       (match list_namespace (Simple.cluster s) (Some 1) with
        | Ret _ => 200
        | Raise _ => 500
        end) body ∧
     health_status (list_namespace (Simple.cluster s) (Some 1)) body) ∧
  (∃ body,
     Enhanced.handle_read_resource "resource://health" t
       = (Ret (Dumps body None), t) ∧
     health_status (list_namespace (Enhanced.cluster t) (Some 1)) body).
Proof.
  split.
  - run_handler.
    destruct (list_namespace (Simple.cluster s) (Some 1)) as [items|e];
      (eexists; split; [apply send_json_response_answers|]);
      repeat split.
  - run_enhanced.
    destruct (list_namespace (Enhanced.cluster t) (Some 1)) as [items|e];
      (eexists; split; [reflexivity|]); repeat split.
Qed.

(** A health body reads [healthy] exactly when the probe succeeded. *)
Lemma health_status_healthy_iff {A} (probe : outcome A) body :
  health_status probe body →
  json_field "status" body = Some (JStr "healthy")
  ↔ ∃ items, probe = Ret items.
Proof.
  destruct probe as [items|e]; cbn; intros (Hs & _ & _).
  - split; eauto.
  - rewrite Hs. split; [discriminate|]. intros [? [=]].
Qed.

(** Claim C1.  For the node, pod, deployment and namespace listings, and
    for every answer of the cluster client: when the records are returned
    (and, for nodes, summarised), the response has status 200, its item
    sequence is the sequence of summaries and its count field is the
    length of that sequence; otherwise the response is an error body with
    status 500 and no listing is produced. *)
Theorem listing_count_equals_length (self : Simple.Request) (ns : string)
    (s : Simple.St) :
  (∃ body,
     match list_node (Simple.cluster s) ≫= mapM node_info_entry with
     | Ret summaries =>
         answers (Simple.handle_nodes self (Simple.connect s)) 200 body ∧
         is_listing "node_count" "nodes" body ∧
         json_field "nodes" body = Some (JList summaries)
     | Raise _ =>
         answers (Simple.handle_nodes self (Simple.connect s)) 500 body ∧
         is_error body
     end) ∧
  (∃ body,
     match list_namespaced_pod (Simple.cluster s) ns with
     | Ret records =>
         answers (Simple.handle_pods self ns (Simple.connect s)) 200 body ∧
         is_listing "pod_count" "pods" body ∧
         json_field "pods" body = Some (JList (pod_info <$> records))
     | Raise _ =>
         answers (Simple.handle_pods self ns (Simple.connect s)) 500 body ∧
         is_error body
     end) ∧
  (∃ body,
     match list_namespaced_deployment (Simple.cluster s) ns with
     | Ret records =>
         answers (Simple.handle_deployments self ns (Simple.connect s)) 200
           body ∧
         is_listing "deployment_count" "deployments" body ∧
         json_field "deployments" body
           = Some (JList (deployment_info <$> records))
     | Raise _ =>
         answers (Simple.handle_deployments self ns (Simple.connect s)) 500
           body ∧
         is_error body
     end) ∧
  (∃ body,
     match list_namespace (Simple.cluster s) None with
     | Ret records =>
         answers (Simple.handle_cluster_info self (Simple.connect s)) 200
           body ∧
         is_listing "namespace_count" "namespaces" body ∧
         json_field "namespaces" body
           = Some (JList ((λ n, JStr (name (ns_metadata n))) <$> records))
     | Raise _ =>
         answers (Simple.handle_cluster_info self (Simple.connect s)) 500
           body ∧
         is_error body
     end).
Proof.
  split; [|split; [|split]].
  - run_handler. destruct (list_node (Simple.cluster s)) as [nodes|e].
    + destruct (mapM node_info_entry nodes) as [summaries|e] eqn:E.
      * eexists. split; [apply send_json_response_answers|]. split; [|done].
        exists summaries. split; [done|]. cbn.
        by rewrite (mapM_Ret_length _ _ _ E).
      * eexists. split; [apply send_json_response_answers|]. by eexists.
    + eexists. split; [apply send_json_response_answers|]. by eexists.
  - destruct (list_namespaced_pod (Simple.cluster s) ns) as [pods|e] eqn:E.
    + run_handler. rewrite E.
      eexists. split; [apply send_json_response_answers|]. split; [|done].
      eexists. split; done.
    + destruct (handle_pods_failure self ns s e E) as (body & ? & ? & _).
      eauto.
  - destruct (list_namespaced_deployment (Simple.cluster s) ns)
      as [deps|e] eqn:E.
    + run_handler. rewrite E.
      eexists. split; [apply send_json_response_answers|]. split; [|done].
      eexists. split; done.
    + destruct (handle_deployments_failure self ns s e E)
        as (body & ? & ? & _).
      eauto.
  - run_handler. destruct (list_namespace (Simple.cluster s) None) as [l|e].
    + eexists. split; [apply send_json_response_answers|]. split; [|done].
      eexists. split; [done|]. cbn. by rewrite length_fmap.
    + eexists. split; [apply send_json_response_answers|]. by eexists.
Qed.

Lemma handle_health_sends self : sends self (Simple.handle_health self).
Proof.
  intros s. run_handler.
  destruct (list_namespace (Simple.cluster s) (Some 1)); eauto.
Qed.

Lemma handle_cluster_info_sends self :
  sends self (Simple.handle_cluster_info self).
Proof.
  intros s. run_handler.
  destruct (list_namespace (Simple.cluster s) None); eauto.
Qed.

Lemma handle_nodes_sends self : sends self (Simple.handle_nodes self).
Proof.
  intros s. run_handler.
  destruct (list_node (Simple.cluster s)) as [nodes|];
    [destruct (mapM node_info_entry nodes)|]; eauto.
Qed.

Lemma handle_pods_sends self ns : sends self (Simple.handle_pods self ns).
Proof.
  intros s. run_handler.
  destruct (list_namespaced_pod (Simple.cluster s) ns) as [|[]]; eauto.
Qed.

Lemma handle_deployments_sends self ns :
  sends self (Simple.handle_deployments self ns).
Proof.
  intros s. run_handler.
  destruct (list_namespaced_deployment (Simple.cluster s) ns) as [|[]]; eauto.
Qed.

Lemma sends_cors self h s :
  sends self h → has_cors (Simple.wfile (h (Simple.connect s)).2) = true.
Proof. intros H. destruct (H (Simple.connect s)) as (c & b & ->). done. Qed.

Lemma sends_returns self h s : sends self h → (h s).1 = Ret tt.
Proof. intros H. destruct (H s) as (c & b & ->). done. Qed.

Lemma serve_handler self h s :
  sends self h →
  has_cors (Simple.wfile
    (try_except h
       (λ e, Simple.logger_error ("Error handling request: " +:+ str_exn e);;
             Simple.send_error self 500 (str_exn e))
       (Simple.connect s)).2) = true.
Proof.
  intros H. erewrite try_except_returns by (by apply (sends_returns self)).
  by apply (sends_cors self).
Qed.

(** Where the header is and where it is missing: a response carries
    [Access-Control-Allow-Origin: *] exactly when it is the reply of one of
    the five handlers, which all answer through [send_json_response]; the
    replies that [send_error] builds (404 for an unrecognized path, 500 for
    an exception that reaches [do_GET]) lack it. *)
Theorem cors_exactly_on_handler_replies (self : Simple.Request)
    (s : Simple.St) :
  has_cors (Simple.wfile (Simple.serve self s).2) = routed self.
Proof.
  unfold Simple.serve, Simple.do_GET, routed.
  destruct (String.eqb (Simple.path self) "/health");
    [apply serve_handler, handle_health_sends|].
  destruct (String.eqb (Simple.path self) "/cluster-info");
    [apply serve_handler, handle_cluster_info_sends|].
  destruct (String.eqb (Simple.path self) "/nodes");
    [apply serve_handler, handle_nodes_sends|].
  unfold Simple.namespace_param.
  destruct (String.eqb (Simple.path self) "/pods").
  { destruct (default ["default"] (Simple.query_params self !! "namespace"))
      as [|ns rest]; [reflexivity|].
    rewrite bool_decide_true by done. cbn [orb andb].
    unfold try_except. rewrite mret_bind.
    destruct (handle_pods_sends self ns (Simple.connect s)) as (c & b & ->).
    reflexivity. }
  destruct (String.eqb (Simple.path self) "/deployments"); [|reflexivity].
  destruct (default ["default"] (Simple.query_params self !! "namespace"))
    as [|ns rest]; [reflexivity|].
  rewrite bool_decide_true by done. cbn [orb andb].
  unfold try_except. rewrite mret_bind.
  destruct (handle_deployments_sends self ns (Simple.connect s)) as (c & b & ->).
  reflexivity.
Qed.

(** The reply to an unrecognized path is a 404 without the header. *)
Lemma cors_missing_on_not_found :
  let r := Simple.serve (sample_request "/nope" None)
             (sample_state (sample_cluster [node_static])) in
  r.1 = Ret tt ∧
  Simple.sent_status (Simple.wfile r.2) = [404] ∧
  has_cors (Simple.wfile r.2) = false.
Proof. repeat split. Qed.

(** ** Determinism *)

Section respects.
Context {S : Type} (R : S → S → Prop).

Lemma respects_ret {A} (a : A) : respects R (mret a : Py S A).
Proof. intros s1 s2 H. split; [reflexivity|exact H]. Qed.

Lemma respects_raise {A} e : respects R (py_raise e : Py S A).
Proof. intros s1 s2 H. split; [reflexivity|exact H]. Qed.

Lemma respects_lift {A} (o : outcome A) : respects R (py_lift o : Py S A).
Proof. intros s1 s2 H. split; [reflexivity|exact H]. Qed.

Lemma respects_bind {A B} (m : Py S A) (f : A → Py S B) :
  respects R m → (∀ a, respects R (f a)) → respects R (m ≫= f).
Proof.
  intros Hm Hf s1 s2 H. destruct (Hm s1 s2 H) as [Ho Hs].
  py_unfold. destruct (m s1) as [o1 s1'], (m s2) as [o2 s2'].
  cbn in Ho, Hs. subst o2. destruct o1 as [a|e].
  - apply Hf, Hs.
  - split; [reflexivity|exact Hs].
Qed.

Lemma respects_try {A} (m : Py S A) (h : exn → Py S A) :
  respects R m → (∀ e, respects R (h e)) → respects R (try_except m h).
Proof.
  intros Hm Hh s1 s2 H. destruct (Hm s1 s2 H) as [Ho Hs].
  py_unfold. destruct (m s1) as [o1 s1'], (m s2) as [o2 s2'].
  cbn in Ho, Hs. subst o2. destruct o1 as [a|e].
  - split; [reflexivity|exact Hs].
  - apply Hh, Hs.
Qed.
End respects.

Section keeps.
Context {S V : Type} (v : S → V).

Lemma keeps_ret {A} (a : A) : keeps v (mret a : Py S A).
Proof. intros s. reflexivity. Qed.

Lemma keeps_raise {A} e : keeps v (py_raise e : Py S A).
Proof. intros s. reflexivity. Qed.

Lemma keeps_lift {A} (o : outcome A) : keeps v (py_lift o : Py S A).
Proof. intros s. reflexivity. Qed.

Lemma keeps_bind {A B} (m : Py S A) (f : A → Py S B) :
  keeps v m → (∀ a, keeps v (f a)) → keeps v (m ≫= f).
Proof.
  intros Hm Hf s. specialize (Hm s). py_unfold.
  destruct (m s) as [[a|e] s']; cbn in Hm |- *.
  - rewrite Hf. exact Hm.
  - exact Hm.
Qed.

Lemma keeps_try {A} (m : Py S A) (h : exn → Py S A) :
  keeps v m → (∀ e, keeps v (h e)) → keeps v (try_except m h).
Proof.
  intros Hm Hh s. specialize (Hm s). py_unfold.
  destruct (m s) as [[a|e] s']; cbn in Hm |- *.
  - exact Hm.
  - rewrite Hh. exact Hm.
Qed.
End keeps.

Lemma undated_app w1 w2 : undated (w1 ++ w2) = undated w1 ++ undated w2.
Proof. apply fmap_app. Qed.

Lemma same_view_write s1 s2 o1 o2 :
  undated [o1] = undated [o2] →
  same_view s1 s2 →
  same_view (Simple.wfile_add o1 s1) (Simple.wfile_add o2 s2).
Proof.
  intros Ho (Hc & He & Hw). repeat split; [exact Hc|exact He|].
  cbn [Simple.wfile_add Simple.wfile]. rewrite !undated_app. congruence.
Qed.

Lemma same_view_log s1 s2 r1 r2 :
  same_view s1 s2 → same_view (Simple.log_add r1 s1) (Simple.log_add r2 s2).
Proof. intros (Hc & He & Hw). repeat split; assumption. Qed.

Lemma respects_logger_info msg : respects same_view (Simple.logger_info msg).
Proof. intros s1 s2 H. split; [reflexivity|]. by apply same_view_log. Qed.

Lemma respects_logger_error msg : respects same_view (Simple.logger_error msg).
Proof. intros s1 s2 H. split; [reflexivity|]. by apply same_view_log. Qed.

Lemma respects_send_header k v : respects same_view (Simple.send_header k v).
Proof. intros s1 s2 H. split; [reflexivity|]. by apply same_view_write. Qed.

Lemma respects_end_headers : respects same_view Simple.end_headers.
Proof. intros s1 s2 H. split; [reflexivity|]. by apply same_view_write. Qed.

Lemma respects_wfile_write p : respects same_view (Simple.wfile_write p).
Proof. intros s1 s2 H. split; [reflexivity|]. by apply same_view_write. Qed.

Lemma respects_send_response self code message :
  respects same_view (Simple.send_response self code message).
Proof.
  intros s1 s2 H. split; [reflexivity|].
  unfold Simple.send_response, Simple.log_request, Simple.log_message,
    Simple.logger_info, Simple.send_header.
  py_unfold. cbn.
  repeat apply same_view_write; try reflexivity.
  by apply same_view_log.
Qed.

Lemma respects_cluster_call {A} (call : Cluster → outcome A) :
  respects same_view (λ s, (call (Simple.cluster s), s)).
Proof.
  intros s1 s2 H. split; [|exact H]. cbn. destruct H as (-> & _). reflexivity.
Qed.

Lemma respects_os_getenv key dflt :
  respects same_view (Simple.os_getenv key dflt).
Proof.
  intros s1 s2 H. split; [|exact H]. cbn.
  destruct H as (_ & -> & _). reflexivity.
Qed.

Create HintDb respects discriminated.

#[local] Hint Resolve respects_ret respects_raise respects_lift
  respects_logger_info respects_logger_error respects_send_header
  respects_end_headers respects_wfile_write respects_send_response
  respects_os_getenv : respects.

Ltac respects_step :=
  first
    [ solve [auto with respects]
    | apply (respects_cluster_call (λ c, list_namespace c _))
    | apply (respects_cluster_call list_node)
    | apply (respects_cluster_call (λ c, list_namespaced_pod c _))
    | apply (respects_cluster_call (λ c, list_namespaced_deployment c _))
    | apply respects_try; [|intros ?]
    | apply respects_bind; [|intros ?] ].

Lemma respects_send_json_response self data status :
  respects same_view (Simple.send_json_response self data status).
Proof. unfold Simple.send_json_response. repeat respects_step. Qed.

Lemma respects_send_error self code message :
  respects same_view (Simple.send_error self code message).
Proof.
  unfold Simple.send_error, Simple.log_error, Simple.log_message.
  repeat respects_step.
  destruct (_ && _); repeat respects_step.
Qed.

#[local] Hint Resolve respects_send_json_response respects_send_error
  : respects.

Lemma respects_handle_health self :
  respects same_view (Simple.handle_health self).
Proof.
  unfold Simple.handle_health, Simple.v1_list_namespace.
  repeat respects_step.
Qed.

Lemma respects_handle_cluster_info self :
  respects same_view (Simple.handle_cluster_info self).
Proof.
  unfold Simple.handle_cluster_info, Simple.v1_list_namespace.
  repeat respects_step.
Qed.

Lemma respects_handle_nodes self :
  respects same_view (Simple.handle_nodes self).
Proof.
  unfold Simple.handle_nodes, Simple.v1_list_node. repeat respects_step.
Qed.

Lemma respects_handle_pods self ns :
  respects same_view (Simple.handle_pods self ns).
Proof.
  unfold Simple.handle_pods, Simple.v1_list_namespaced_pod.
  repeat respects_step. destruct e; repeat respects_step.
Qed.

Lemma respects_handle_deployments self ns :
  respects same_view (Simple.handle_deployments self ns).
Proof.
  unfold Simple.handle_deployments, Simple.apps_v1_list_namespaced_deployment.
  repeat respects_step. destruct e; repeat respects_step.
Qed.

Lemma respects_namespace_param self :
  respects same_view (Simple.namespace_param self).
Proof.
  unfold Simple.namespace_param. destruct (default _ _); repeat respects_step.
Qed.

#[local] Hint Resolve respects_handle_health respects_handle_cluster_info
  respects_handle_nodes respects_handle_pods respects_handle_deployments
  respects_namespace_param : respects.

Lemma respects_do_GET self : respects same_view (Simple.do_GET self).
Proof.
  unfold Simple.do_GET. apply respects_try; [|intros e; repeat respects_step].
  repeat (destruct (String.eqb _ _); [repeat respects_step|]).
  repeat respects_step.
Qed.

Lemma same_view_connect s1 s2 :
  inputs s1 = inputs s2 → same_view (Simple.connect s1) (Simple.connect s2).
Proof. intros [= Hc He]. repeat split; assumption. Qed.

(** Serving reads the cluster and the configuration and writes neither. *)
Lemma keeps_inputs_modify f :
  (∀ s, inputs (f s) = inputs s) → keeps inputs (py_modify f).
Proof. intros H s. apply H. Qed.

Lemma keeps_inputs_read {A} (f : Simple.St → outcome A) :
  keeps inputs (λ s, (f s, s)).
Proof. intros s. reflexivity. Qed.

Ltac keeps_step :=
  first
    [ apply keeps_ret | apply keeps_raise | apply keeps_lift
    | apply keeps_inputs_modify; reflexivity
    | apply (keeps_inputs_read (λ s, _))
    | apply keeps_try; [|intros ?]
    | apply keeps_bind; [|intros ?]
    | match goal with |- keeps _ (match ?x with _ => _ end) => destruct x end
    | match goal with |- keeps _ (if ?x then _ else _) => destruct x end ].

Lemma keeps_inputs_do_GET self : keeps inputs (Simple.do_GET self).
Proof.
  unfold Simple.do_GET, Simple.handle_health, Simple.handle_cluster_info,
    Simple.handle_nodes, Simple.handle_pods, Simple.handle_deployments,
    Simple.namespace_param, Simple.send_json_response, Simple.send_error,
    Simple.send_response, Simple.log_error, Simple.log_request,
    Simple.log_message, Simple.logger_info, Simple.logger_error,
    Simple.send_header, Simple.end_headers, Simple.wfile_write,
    Simple.os_getenv, Simple.v1_list_namespace, Simple.v1_list_node,
    Simple.v1_list_namespaced_pod, Simple.apps_v1_list_namespaced_deployment,
    py_gets.
  repeat keeps_step.
Qed.

(** Claim C9.  Serving a request from two process states that agree on
    the cluster's answers and on the configuration (and may differ in the
    clock and in what has been logged) has the same outcome and writes the
    same response: same status line, same headers up to the value of
    [Date], same body.  Serving changes neither the cluster's answers nor
    the configuration. *)
Theorem queries_are_deterministic (self : Simple.Request)
    (s1 s2 : Simple.St) :
  inputs s1 = inputs s2 →
  (Simple.serve self s1).1 = (Simple.serve self s2).1 ∧
  undated (Simple.wfile (Simple.serve self s1).2)
    = undated (Simple.wfile (Simple.serve self s2).2) ∧
  inputs (Simple.serve self s1).2 = inputs s1.
Proof.
  intros H.
  destruct (respects_do_GET self _ _ (same_view_connect s1 s2 H))
    as (Ho & _ & _ & Hw).
  split; [assumption|]. split; [assumption|].
  apply (keeps_inputs_do_GET self (Simple.connect s1)).
Qed.

(** The same state with another clock and another log. *)
Lemma queries_are_deterministic_witness :
  let self := sample_request "/pods" (Some "mcp-server") in
  let s1 := sample_state (sample_cluster [node_static]) in
  let s2 := Simple.log_add {| lvl := INFO; text := "earlier request" |}
              {| Simple.cluster := Simple.cluster s1;
                 Simple.environ := Simple.environ s1;
                 Simple.clock := "Fri, 02 Jan 2026 09:30:00 GMT";
                 Simple.logged := []; Simple.wfile := [] |} in
  (Simple.serve self s1).1 = (Simple.serve self s2).1 ∧
  undated (Simple.wfile (Simple.serve self s1).2)
    = undated (Simple.wfile (Simple.serve self s2).2) ∧
  inputs (Simple.serve self s1).2 = inputs s1.
Proof.
  intros self s1 s2. apply (queries_are_deterministic self s1 s2).
  reflexivity.
Defined.

(** Calling the same query twice in a row gives the same response twice. *)
Lemma serve_twice (self : Simple.Request) (s : Simple.St) :
  let first := Simple.serve self s in
  let second := Simple.serve self first.2 in
  first.1 = second.1 ∧
  undated (Simple.wfile first.2) = undated (Simple.wfile second.2).
Proof.
  intros first second.
  assert (H : inputs s = inputs first.2).
  { symmetry. apply (keeps_inputs_do_GET self (Simple.connect s)). }
  destruct (respects_do_GET self _ _ (same_view_connect _ _ H))
    as (Ho & _ & _ & Hw).
  split; assumption.
Qed.

(** ** Node summaries *)

(** A label that is missing from the labels dict is reported as
    ["unknown"], and readiness comes from the reported conditions. *)
Lemma node_info_entry_defined node m conds :
  labels (node_metadata node) = Some m →
  node_conditions (node_status node) = Some conds →
  node_info_entry node =
    Ret (JObj
      [("name", JStr (name (node_metadata node)));
       ("status", JStr (if existsb is_ready conds then "Ready" else "NotReady"));
       ("instance_type",
         JStr (default "unknown" (m !! "node.kubernetes.io/instance-type")));
       ("zone", JStr (default "unknown" (m !! "topology.kubernetes.io/zone")))]).
Proof. intros Hl Hc. unfold node_info_entry. rewrite Hl, Hc. reflexivity. Qed.

(** Without reported conditions the summary is not built. *)
Lemma node_info_entry_no_conditions node :
  node_conditions (node_status node) = None →
  node_info_entry node = Raise (TypeError "'NoneType' object is not iterable").
Proof. intros Hc. unfold node_info_entry. rewrite Hc. reflexivity. Qed.

(** Without a labels dict the summary is not built either. *)
Lemma node_info_entry_no_labels node conds :
  node_conditions (node_status node) = Some conds →
  labels (node_metadata node) = None →
  node_info_entry node
  = Raise (AttributeError "'NoneType' object has no attribute 'get'").
Proof. intros Hc Hl. unfold node_info_entry. rewrite Hc, Hl. reflexivity. Qed.

(** The sibling path: a pod without conditions is summarised, with zero
    ready conditions and zero restarts. *)
Lemma pod_info_no_conditions pod :
  pod_conditions (pod_status pod) = None →
  container_statuses (pod_status pod) = None →
  json_field "ready" (pod_info pod) = Some (JInt 0) ∧
  json_field "restart_count" (pod_info pod) = Some (JInt 0).
Proof. intros Hc Hs. unfold pod_info. rewrite Hc, Hs. split; reflexivity. Qed.

(** Claim C4, at a node that has not reported its conditions: building the
    summary raises [TypeError], and with it the whole node listing becomes
    an error reply, in both variants; the pod summary, which guards the
    same field with [or []], is built. *)
Theorem node_without_conditions_raises :
  node_info_entry node_fresh
    = Raise (TypeError "'NoneType' object is not iterable") ∧
  answers
    (Simple.handle_nodes (sample_request "/nodes" None)
       (Simple.connect
          (sample_state (sample_cluster [node_static; node_fresh]))))
    500 (error_body "'NoneType' object is not iterable") ∧
  (Enhanced.handle_read_resource "resource://node-info"
     (sample_enhanced (sample_cluster [node_static; node_fresh]))).1
    = Ret (Dumps (error_body "'NoneType' object is not iterable") None) ∧
  json_field "ready" (pod_info pod_fresh) = Some (JInt 0).
Proof. repeat split. Qed.

(** ** [server-enhanced.py] *)

(** Claim C10.  [handle_read_resource] of the enhanced variant returns for
    every URI and every answer of the cluster client, and what it returns is
    the text of a JSON object; for a URI that is not one of the three known
    ones the object is [{"error": "Unknown resource: <uri>"}], the
    [ValueError] having been caught by the handler's own [except]. *)
Theorem read_resource_never_raises (uri : string) (t : Enhanced.St) :
  ∃ obj t',
    Enhanced.handle_read_resource uri t = (Ret (Dumps (JObj obj) None), t') ∧
    (uri ∈ known_uris ∨
     obj = [("error", JStr ("Unknown resource: " +:+ uri))]).
Proof.
  unfold known_uris. run_enhanced.
  destruct (String.eqb_spec uri "resource://cluster-info") as [->|H1].
  { destruct (list_namespace (Enhanced.cluster t) None);
      do 2 eexists; (split; [reflexivity|]); left; set_solver. }
  destruct (String.eqb_spec uri "resource://node-info") as [->|H2].
  { destruct (list_node (Enhanced.cluster t)) as [nodes|];
      [destruct (mapM node_info_entry nodes)|];
      do 2 eexists; (split; [reflexivity|]); left; set_solver. }
  destruct (String.eqb_spec uri "resource://health") as [->|H3].
  { destruct (list_namespace (Enhanced.cluster t) (Some 1));
      do 2 eexists; (split; [reflexivity|]); left; set_solver. }
  do 2 eexists. split; [reflexivity|]. right. reflexivity.
Qed.

(** An unknown URI is answered with the error object and one log record. *)
Example read_resource_unknown :
  Enhanced.handle_read_resource "resource://pods"
    (sample_enhanced unreachable_cluster)
  = (Ret (Dumps (error_body "Unknown resource: resource://pods") None),
     Enhanced.log_add
       {| lvl := ERROR;
          text := "Error reading resource resource://pods: "
                  +:+ "Unknown resource: resource://pods" |}
       (sample_enhanced unreachable_cluster)).
Proof. reflexivity. Qed.

(** The tools of the enhanced variant classify a missing namespace in the
    same way. *)
Lemma enhanced_missing_namespace_is_not_found (ns : string) (show : bool)
    (t : Enhanced.St) r1 x1 r2 x2 :
  list_namespaced_pod (Enhanced.cluster t) ns
    = Raise (ApiException (Some 404) r1 x1) →
  list_namespaced_deployment (Enhanced.cluster t) ns
    = Raise (ApiException (Some 404) r2 x2) →
  let arguments :=
    {| Enhanced.include_nodes := None; Enhanced.namespace := Some ns;
       Enhanced.show_status := Some show |} in
  let reply :=
    [{| Enhanced.type_ := "text";
        Enhanced.text := Dumps (error_body (not_found_msg ns)) (Some 2) |}] in
  Enhanced.handle_call_tool "list_pods" arguments t = (Ret reply, t) ∧
  Enhanced.handle_call_tool "get_deployments" arguments t = (Ret reply, t).
Proof.
  intros Hp Hd. split; run_enhanced; cbn; rewrite ?Hp, ?Hd; reflexivity.
Qed.

(** The listings of the enhanced variant: the count is the length. *)
Lemma enhanced_listing_count_equals_length (ns : string) (t : Enhanced.St) :
  let arguments :=
    {| Enhanced.include_nodes := Some true; Enhanced.namespace := Some ns;
       Enhanced.show_status := None |} in
  listing_text "namespace_count" "namespaces"
    (Enhanced.handle_read_resource "resource://cluster-info" t) ∧
  listing_text "node_count" "nodes"
    (Enhanced.handle_read_resource "resource://node-info" t) ∧
  listing_tool "node_count" "nodes"
    (Enhanced.handle_call_tool "get_cluster_status" arguments t) ∧
  listing_tool "pod_count" "pods"
    (Enhanced.handle_call_tool "list_pods" arguments t) ∧
  listing_tool "deployment_count" "deployments"
    (Enhanced.handle_call_tool "get_deployments" arguments t).
Proof.
  cbn zeta. unfold listing_text, listing_tool. repeat split; run_enhanced; cbn.
  - destruct (list_namespace (Enhanced.cluster t) None) as [l|e].
    + do 2 eexists. split; [reflexivity|]. left. eexists. split; [done|].
      cbn. by rewrite length_fmap.
    + do 2 eexists. split; [reflexivity|]. right. by eexists.
  - destruct (list_node (Enhanced.cluster t)) as [nodes|e];
      [destruct (mapM node_info_entry nodes) as [l|e] eqn:E|].
    + do 2 eexists. split; [reflexivity|]. left. eexists. split; [done|].
      cbn. by rewrite (mapM_Ret_length _ _ _ E).
    + do 2 eexists. split; [reflexivity|]. right. by eexists.
    + do 2 eexists. split; [reflexivity|]. right. by eexists.
  - destruct (list_namespace (Enhanced.cluster t) None) as [l0|e];
      [destruct (list_node (Enhanced.cluster t)) as [nodes|e];
       [destruct (mapM Enhanced.node_ready_entry nodes) as [l|e] eqn:E|]|].
    + do 2 eexists. split; [reflexivity|]. left. eexists. split; [done|].
      cbn. by rewrite (mapM_Ret_length _ _ _ E).
    + do 2 eexists. split; [reflexivity|]. right. by eexists.
    + do 2 eexists. split; [reflexivity|]. right. by eexists.
    + do 2 eexists. split; [reflexivity|]. right. by eexists.
  - destruct (list_namespaced_pod (Enhanced.cluster t) ns) as [l|[]].
    + do 2 eexists. split; [reflexivity|]. left. eexists. split; done.
    + do 2 eexists. split; [reflexivity|]. right.
      apply api_exception_body_is_error.
    + do 2 eexists. split; [reflexivity|]. right. by eexists.
    + do 2 eexists. split; [reflexivity|]. right. by eexists.
    + do 2 eexists. split; [reflexivity|]. right. by eexists.
    + do 2 eexists. split; [reflexivity|]. right. by eexists.
    + do 2 eexists. split; [reflexivity|]. right. by eexists.
  - destruct (list_namespaced_deployment (Enhanced.cluster t) ns) as [l|[]].
    + do 2 eexists. split; [reflexivity|]. left. eexists. split; done.
    + do 2 eexists. split; [reflexivity|]. right.
      apply api_exception_body_is_error.
    + do 2 eexists. split; [reflexivity|]. right. by eexists.
    + do 2 eexists. split; [reflexivity|]. right. by eexists.
    + do 2 eexists. split; [reflexivity|]. right. by eexists.
    + do 2 eexists. split; [reflexivity|]. right. by eexists.
    + do 2 eexists. split; [reflexivity|]. right. by eexists.
Qed.

(** ** [server-claude-bridge.py] *)

Lemma not_baseline_object o :
  Bridge.not_baseline (JObj o)
  = Ret (Bridge.ne_str (default JNull (dict_get "instance_type" o)) "t3.medium").
Proof. reflexivity. Qed.

Lemma not_baseline_true n : Bridge.not_baseline n = Ret true → off_baseline n.
Proof.
  unfold off_baseline. destruct n as [| | | | |o]; try discriminate.
  rewrite not_baseline_object. cbn. intros [= H] Heq. rewrite Heq in H.
  discriminate H.
Qed.



(** Whenever the filtered query returns at all, it returns such a subset. *)
Lemma karpenter_filter_returns_subset (nodes : list (string * json)) v :
  Bridge.node_list true nodes = Ret v →
  ∃ kept all,
    v = JList kept ∧
    Bridge.node_list false nodes ≫= Bridge.json_iter = Ret all ∧
    sublist kept all ∧
    Forall off_baseline kept.
Proof.
  unfold Bridge.node_list. py_unfold.
  destruct (Bridge.json_iter _) as [all|]; [|discriminate].
  destruct (filterM Bridge.not_baseline all) as [kept|] eqn:Hf; [|discriminate].
  intros [= <-]. exists kept, all. repeat split.
  - apply (filterM_sublist _ _ _ Hf).
  - eapply Forall_impl; [apply (filterM_Forall _ _ _ Hf)|].
    intros n. apply not_baseline_true.
Qed.

(** The text that [get_node_info] returns for the sample listing names the
    one node that is not of the baseline type. *)
Example get_node_info_sample :
  let s :=
    {| Bridge.api := λ _, Ret sample_nodes_body; Bridge.logged := [] |} in
  (Bridge.get_node_info {| Bridge.include_karpenter_only := Some true |} s).1
  = Ret [{| Bridge.type_ := "text";
            Bridge.text :=
              [Bridge.Lit "🖥️ Your cluster has "; Bridge.Fmt (JInt 1);
               Bridge.Lit " "; Bridge.Lit "Karpenter-managed ";
               Bridge.Lit "nodes:"; Bridge.Lit Bridge.nl; Bridge.Lit Bridge.nl;
               Bridge.Lit "❌"; Bridge.Lit " ";
               Bridge.Fmt (JStr "ip-10-0-2-20"); Bridge.Lit Bridge.nl;
               Bridge.Lit "   • Type: "; Bridge.Fmt (JStr "m5.large");
               Bridge.Lit Bridge.nl;
               Bridge.Lit "   • Zone: "; Bridge.Fmt (JStr "unknown");
               Bridge.Lit Bridge.nl;
               Bridge.Lit "   • Status: "; Bridge.Fmt (JStr "NotReady");
               Bridge.Lit Bridge.nl; Bridge.Lit Bridge.nl] |}].
Proof. reflexivity. Qed.

(** The enhanced variant is deterministic in the same sense: the text that a
    resource read or a tool call returns depends on the cluster's answers
    and on the configuration only. *)
Lemma respects_enhanced_cluster_call {A} (call : Cluster → outcome A) :
  respects same_inputs (λ t, (call (Enhanced.cluster t), t)).
Proof.
  intros t1 t2 H. split; [|exact H]. cbn. destruct H as (-> & _). reflexivity.
Qed.

Lemma respects_enhanced_getenv key dflt :
  respects same_inputs (Enhanced.os_getenv key dflt).
Proof.
  intros t1 t2 H. split; [|exact H]. cbn. destruct H as (_ & ->). reflexivity.
Qed.

Lemma respects_enhanced_logger_error msg :
  respects same_inputs (Enhanced.logger_error msg).
Proof. intros t1 t2 H. split; [reflexivity|exact H]. Qed.

Ltac respects_enhanced :=
  repeat first
    [ apply respects_ret | apply respects_raise | apply respects_lift
    | apply respects_enhanced_getenv | apply respects_enhanced_logger_error
    | apply (respects_enhanced_cluster_call (λ c, list_namespace c _))
    | apply (respects_enhanced_cluster_call list_node)
    | apply (respects_enhanced_cluster_call (λ c, list_namespaced_pod c _))
    | apply (respects_enhanced_cluster_call
               (λ c, list_namespaced_deployment c _))
    | apply respects_try; [|intros ?]
    | apply respects_bind; [|intros ?]
    | match goal with
      | |- respects _ (if ?b then _ else _) => destruct b
      | |- respects _ (match ?e with _ => _ end) => destruct e
      end ].

Lemma respects_handle_read_resource uri :
  respects same_inputs (Enhanced.handle_read_resource uri).
Proof.
  unfold Enhanced.handle_read_resource, Enhanced.v1_list_namespace,
    Enhanced.v1_list_node.
  respects_enhanced.
Qed.

Lemma respects_handle_call_tool name arguments :
  respects same_inputs (Enhanced.handle_call_tool name arguments).
Proof.
  unfold Enhanced.handle_call_tool, Enhanced.v1_list_namespace,
    Enhanced.v1_list_node, Enhanced.v1_list_namespaced_pod,
    Enhanced.apps_v1_list_namespaced_deployment,
    Enhanced.except_api_exception.
  respects_enhanced.
Qed.

Lemma enhanced_queries_are_deterministic uri name arguments t1 t2 :
  same_inputs t1 t2 →
  (Enhanced.handle_read_resource uri t1).1
    = (Enhanced.handle_read_resource uri t2).1 ∧
  (Enhanced.handle_call_tool name arguments t1).1
    = (Enhanced.handle_call_tool name arguments t2).1.
Proof.
  intros H. split.
  - apply (respects_handle_read_resource uri t1 t2 H).
  - apply (respects_handle_call_tool name arguments t1 t2 H).
Qed.

(** * Further properties of the code *)

(** ** [server-simple.py] *)

(** What one [send_json_response] leaves on a fresh connection and in the
    log. *)
Lemma send_json_response_effect self data status s :
  let r := Simple.send_json_response self data status (Simple.connect s) in
  r.1 = Ret tt ∧
  Simple.sent_status (Simple.wfile r.2) = [status] ∧
  sent_bodies (Simple.wfile r.2)
    = [Simple.JsonBytes (Dumps data (Some 2))] ∧
  Simple.logged r.2 = Simple.logged s ++ [request_record self status].
Proof. repeat split. Qed.

Lemma handle_health_sends_200_or_500 self :
  sends_200_or_500 self (Simple.handle_health self).
Proof.
  intros s. run_handler.
  destruct (list_namespace (Simple.cluster s) (Some 1)); eauto.
Qed.

Lemma handle_cluster_info_sends_200_or_500 self :
  sends_200_or_500 self (Simple.handle_cluster_info self).
Proof.
  intros s. run_handler.
  destruct (list_namespace (Simple.cluster s) None); eauto.
Qed.

Lemma handle_nodes_sends_200_or_500 self :
  sends_200_or_500 self (Simple.handle_nodes self).
Proof.
  intros s. run_handler.
  destruct (list_node (Simple.cluster s)) as [nodes|];
    [destruct (mapM node_info_entry nodes)|]; eauto.
Qed.

Lemma handle_pods_sends_200_or_500 self ns :
  sends_200_or_500 self (Simple.handle_pods self ns).
Proof.
  intros s. run_handler.
  destruct (list_namespaced_pod (Simple.cluster s) ns) as [|[]]; eauto.
Qed.

Lemma handle_deployments_sends_200_or_500 self ns :
  sends_200_or_500 self (Simple.handle_deployments self ns).
Proof.
  intros s. run_handler.
  destruct (list_namespaced_deployment (Simple.cluster s) ns) as [|[]]; eauto.
Qed.

(** What [do_GET] does with a handler's reply: nothing more. *)
Lemma do_GET_handler self (h : Simple.M unit) s :
  sends_200_or_500 self h →
  ∃ code body,
    try_except h
      (λ e, Simple.logger_error ("Error handling request: " +:+ str_exn e);;
            Simple.send_error self 500 (str_exn e))
      (Simple.connect s)
    = Simple.send_json_response self body code (Simple.connect s) ∧
    (code = 200 ∨ code = 500).
Proof.
  intros H. destruct (H (Simple.connect s)) as (code & body & E & Hc).
  exists code, body. split; [|exact Hc].
  unfold try_except. rewrite E. reflexivity.
Qed.

(** Membership in a list of string literals. *)
Ltac in_list :=
  rewrite ?elem_of_cons, ?elem_of_nil; tauto || (intuition congruence).

(** The request is served by one of the handlers, by the 404 page, or (when
    the namespace parameter cannot be read) by the 500 page. *)
Lemma serve_cases self s :
  (routed self = true ∧ Simple.path self ∈ endpoints ∧
   ∃ code body,
     Simple.serve self s
     = Simple.send_json_response self body code (Simple.connect s) ∧
     (code = 200 ∨ code = 500)) ∨
  (routed self = false ∧ (Simple.path self ∉ endpoints) ∧
   Simple.serve self s
   = Simple.send_error self 404 "Not Found" (Simple.connect s)) ∨
  (routed self = false ∧ Simple.path self ∈ endpoints ∧
   Simple.serve self s
   = (Simple.logger_error
        ("Error handling request: " +:+ "list index out of range");;
      Simple.send_error self 500 "list index out of range")
       (Simple.connect s)).
Proof.
  unfold Simple.serve, Simple.do_GET, routed, endpoints.
  destruct (String.eqb_spec (Simple.path self) "/health") as [E1|N1].
  { left. split; [done|]. split; [in_list|].
    apply do_GET_handler, handle_health_sends_200_or_500. }
  destruct (String.eqb_spec (Simple.path self) "/cluster-info") as [E2|N2].
  { left. split; [done|]. split; [in_list|].
    apply do_GET_handler, handle_cluster_info_sends_200_or_500. }
  destruct (String.eqb_spec (Simple.path self) "/nodes") as [E3|N3].
  { left. split; [done|]. split; [in_list|].
    apply do_GET_handler, handle_nodes_sends_200_or_500. }
  unfold Simple.namespace_param.
  destruct (String.eqb_spec (Simple.path self) "/pods") as [E4|N4].
  { destruct (default ["default"] (Simple.query_params self !! "namespace"))
      as [|ns rest].
    - right. right. split; [done|]. split; [in_list|done].
    - left. split; [done|]. split; [in_list|].
      apply (do_GET_handler self ((mret ns) ≫= (Simple.handle_pods self))).
      intros s'. rewrite mret_bind. apply handle_pods_sends_200_or_500. }
  destruct (String.eqb_spec (Simple.path self) "/deployments") as [E5|N5].
  { destruct (default ["default"] (Simple.query_params self !! "namespace"))
      as [|ns rest].
    - right. right. split; [done|]. split; [in_list|done].
    - left. split; [done|]. split; [in_list|].
      apply (do_GET_handler self
               ((mret ns) ≫= (Simple.handle_deployments self))).
      intros s'. rewrite mret_bind.
      apply handle_deployments_sends_200_or_500. }
  right. left. split; [done|]. split; [in_list|done].
Qed.


(** X2.  The namespace of a [/pods] or [/deployments] request is the first
    value of the [namespace] parameter, and ["default"] when the parameter
    is absent: the request is then served exactly as the handler serves
    that namespace. *)
Theorem namespace_parameter_default (self : Simple.Request) (s : Simple.St)
    (ns : string) :
  (Simple.query_params self !! "namespace" = None ∧ ns = "default") ∨
  (∃ rest, Simple.query_params self !! "namespace" = Some (ns :: rest)) →
  Simple.path self = "/pods" ∨ Simple.path self = "/deployments" →
  Simple.serve self s
  = (if String.eqb (Simple.path self) "/pods"
     then Simple.handle_pods self ns
     else Simple.handle_deployments self ns) (Simple.connect s).
Proof.
  intros Hq Hp.
  assert (Hn : Simple.namespace_param self = mret ns).
  { unfold Simple.namespace_param.
    destruct Hq as [[-> ->]|[rest ->]]; reflexivity. }
  unfold Simple.serve, Simple.do_GET. rewrite Hn.
  destruct Hp as [-> | ->]; cbn [String.eqb Ascii.eqb Bool.eqb];
    (erewrite try_except_returns; [reflexivity|]); rewrite mret_bind.
  - apply handle_pods_returns.
  - apply handle_deployments_returns.
Qed.

Lemma namespace_parameter_default_witness :
  let self := sample_request "/pods" None in
  let s := sample_state (sample_cluster [node_static]) in
  Simple.serve self s = Simple.handle_pods self "default" (Simple.connect s).
Proof.
  intros self s. apply (namespace_parameter_default self s "default").
  - left. split; reflexivity.
  - left. reflexivity.
Defined.

(** X3.  A request that reaches one of the five handlers adds exactly one
    record to the log, the INFO line of the response with its status code:
    a failure of the cluster call inside a handler is answered, and is not
    logged at ERROR level. *)
Theorem handler_replies_log_one_record (self : Simple.Request)
    (s : Simple.St) :
  routed self = true →
  ∃ code,
    Simple.sent_status (Simple.wfile (Simple.serve self s).2) = [code] ∧
    Simple.logged (Simple.serve self s).2
    = Simple.logged s ++ [request_record self code].
Proof.
  intros Hr.
  destruct (serve_cases self s)
    as [(_ & _ & code & body & -> & _)|[(Hf & _)|(Hf & _)]];
    [|congruence|congruence].
  exists code. split; reflexivity.
Qed.

Lemma handler_replies_log_one_record_witness :
  let self := sample_request "/health" None in
  let s := sample_state unreachable_cluster in
  ∃ code,
    Simple.sent_status (Simple.wfile (Simple.serve self s).2) = [code] ∧
    Simple.logged (Simple.serve self s).2
    = Simple.logged s ++ [request_record self code].
Proof.
  intros self s. apply (handler_replies_log_one_record self s). reflexivity.
Defined.

(** X4.  The number that a pod summary reports as [ready] counts the
    conditions of type Ready with status True: it lies between 0 and the
    number of conditions, and it is positive exactly when the test that
    makes a node ["Ready"] succeeds on the same conditions. *)
Theorem ready_count_bounds (conds : option (list V1Condition)) :
  (0 ≤ ready_count conds ≤ Z.of_nat (length (or_empty conds)))%Z ∧
  ((0 < ready_count conds)%Z ↔ existsb is_ready (or_empty conds) = true).
Proof.
  unfold ready_count. generalize (or_empty conds) as l. intros l.
  split.
  - split; [lia|]. apply inj_le, length_filter.
  - induction l as [|c l IH]; [cbn; split; [lia|discriminate]|].
    rewrite filter_cons. cbn [existsb].
    destruct (is_ready c) eqn:E.
    + rewrite decide_True by done. cbn [length orb]. split; [done|lia].
    + rewrite decide_False by (by intros [=]). cbn [orb]. exact IH.
Qed.

(** Which node records can be summarised. *)
Lemma node_info_entry_returns_iff node :
  (∃ j, node_info_entry node = Ret j) ↔ summarisable node.
Proof.
  unfold node_info_entry, summarisable, py_iter, py_dict_get.
  destruct (node_conditions (node_status node)) as [conds|],
    (labels (node_metadata node)) as [m|]; cbn; split;
    try (intros [j [=]]); try (intros [[? [=]] [? [=]]]); eauto.
Qed.

Lemma mapM_Ret_iff {A B} (f : A → outcome B) (l : list A) :
  (∃ k, mapM f l = Ret k) ↔ Forall (λ x, ∃ y, f x = Ret y) l.
Proof.
  split; [|apply mapM_Ret_total].
  induction l as [|x l IH]; [constructor|].
  cbn. py_unfold. destruct (f x) as [y|] eqn:E; [|intros [? [=]]].
  destruct (mapM f l) as [k'|]; [|intros [? [=]]].
  intros _. constructor; eauto.
Qed.

(** X5.  The node listing is all or nothing: when the cluster returns the
    node records, [handle_nodes] answers 200 exactly when every record
    carries a labels dict and a conditions list; a single record without
    one of them turns the whole answer into a 500 error body. *)
Theorem node_listing_needs_every_node (self : Simple.Request)
    (s : Simple.St) (nodes : list V1Node) :
  list_node (Simple.cluster s) = Ret nodes →
  let r := Simple.handle_nodes self (Simple.connect s) in
  ((∃ body, answers r 200 body) ↔ Forall summarisable nodes) ∧
  ((∃ body, answers r 500 body ∧ is_error body)
   ↔ Exists (λ n, ¬ summarisable n) nodes).
Proof.
  intros Hn r.
  assert (Hall : Forall summarisable nodes
                 ↔ ∃ k, mapM node_info_entry nodes = Ret k).
  { rewrite mapM_Ret_iff. apply Forall_proper; [|done].
    intros n. symmetry. apply node_info_entry_returns_iff. }
  assert (Hex : Exists (λ n, ¬ summarisable n) nodes
                ↔ ¬ Forall summarisable nodes).
  { split; [apply (Exists_not_Forall summarisable)|].
    apply (not_Forall_Exists summarisable). }
  subst r. revert Hall. run_handler. rewrite Hn.
  destruct (mapM node_info_entry nodes) as [k|e]; intros Hall.
  - split.
    + split; [intros _; apply Hall; eauto|].
      intros _. eexists. apply send_json_response_answers.
    + rewrite Hex. split.
      * intros (body & (_ & [=] & _) & _).
      * intros Hno. exfalso. apply Hno, Hall. eauto.
  - assert (Hno : ¬ Forall summarisable nodes).
    { intros H. apply Hall in H as [k [=]]. }
    split.
    + split; [intros (body & _ & [=] & _)|intros H; contradiction].
    + rewrite Hex. split; [done|]. intros _. eexists.
      split; [apply send_json_response_answers|by eexists].
Qed.

Lemma node_listing_needs_every_node_witness :
  let s := sample_state (sample_cluster [node_static; node_fresh]) in
  let r := Simple.handle_nodes (sample_request "/nodes" None)
             (Simple.connect s) in
  ((∃ body, answers r 200 body)
   ↔ Forall summarisable [node_static; node_fresh]) ∧
  ((∃ body, answers r 500 body ∧ is_error body)
   ↔ Exists (λ n, ¬ summarisable n) [node_static; node_fresh]).
Proof.
  intros s.
  apply (node_listing_needs_every_node (sample_request "/nodes" None) s).
  reflexivity.
Defined.

(** ** [server-simple.py] and [server-enhanced.py] side by side *)

(** X6.  Over the same cluster the two transports give the same JSON: the
    body of [GET /pods] is the JSON in the text of the [list_pods] tool
    (with statuses shown), the body of [GET /deployments] is that of the
    [get_deployments] tool, and the body of [GET /nodes] is that of the
    [resource://node-info] resource, on success and on every failure. *)
Theorem http_and_mcp_agree (self : Simple.Request) (ns : string)
    (show : option bool) (inc : option bool) (s : Simple.St)
    (t : Enhanced.St) :
  Simple.cluster s = Enhanced.cluster t →
  default true show = true →
  let arguments :=
    {| Enhanced.include_nodes := inc; Enhanced.namespace := Some ns;
       Enhanced.show_status := show |} in
  (∃ body,
     Simple.sent_json
       (Simple.wfile (Simple.handle_pods self ns (Simple.connect s)).2)
     = [body] ∧
     (Enhanced.handle_call_tool "list_pods" arguments t).1
     = Ret (tool_text body)) ∧
  (∃ body,
     Simple.sent_json
       (Simple.wfile (Simple.handle_deployments self ns (Simple.connect s)).2)
     = [body] ∧
     (Enhanced.handle_call_tool "get_deployments" arguments t).1
     = Ret (tool_text body)) ∧
  (∃ body,
     Simple.sent_json
       (Simple.wfile (Simple.handle_nodes self (Simple.connect s)).2)
     = [body] ∧
     (Enhanced.handle_read_resource "resource://node-info" t).1
     = Ret (Dumps body None)).
Proof.
  intros Hc Hshow arguments. subst arguments. unfold tool_text.
  split; [|split].
  - run_handler. run_enhanced. cbn. rewrite Hshow, <- Hc.
    destruct (list_namespaced_pod (Simple.cluster s) ns) as [pods|[]];
      eexists; (split; [reflexivity|]); reflexivity.
  - run_handler. run_enhanced. cbn. rewrite <- Hc.
    destruct (list_namespaced_deployment (Simple.cluster s) ns) as [l|[]];
      eexists; (split; [reflexivity|]); reflexivity.
  - run_handler. run_enhanced. cbn. rewrite <- Hc.
    destruct (list_node (Simple.cluster s)) as [nodes|];
      [destruct (mapM node_info_entry nodes)|];
      eexists; (split; [reflexivity|]); reflexivity.
Qed.

Lemma http_and_mcp_agree_witness :
  let self := sample_request "/pods" (Some "mcp-server") in
  let s := sample_state (sample_cluster [node_static; node_dynamic]) in
  let t := sample_enhanced (sample_cluster [node_static; node_dynamic]) in
  let arguments :=
    {| Enhanced.include_nodes := None; Enhanced.namespace := Some "mcp-server";
       Enhanced.show_status := None |} in
  (∃ body,
     Simple.sent_json
       (Simple.wfile
          (Simple.handle_pods self "mcp-server" (Simple.connect s)).2)
     = [body] ∧
     (Enhanced.handle_call_tool "list_pods" arguments t).1
     = Ret (tool_text body)) ∧
  (∃ body,
     Simple.sent_json
       (Simple.wfile
          (Simple.handle_deployments self "mcp-server" (Simple.connect s)).2)
     = [body] ∧
     (Enhanced.handle_call_tool "get_deployments" arguments t).1
     = Ret (tool_text body)) ∧
  (∃ body,
     Simple.sent_json
       (Simple.wfile (Simple.handle_nodes self (Simple.connect s)).2)
     = [body] ∧
     (Enhanced.handle_read_resource "resource://node-info" t).1
     = Ret (Dumps body None)).
Proof.
  intros self s t.
  apply (http_and_mcp_agree self "mcp-server" None None s t); reflexivity.
Defined.

(** ** [server-enhanced.py] *)

(** X7.  [handle_call_tool] never raises: for every tool name, every
    arguments and every answer of the cluster it returns exactly one text,
    the indented JSON of an object; for a name that [handle_list_tools]
    does not list, the object is [{"error": "Unknown tool: <name>"}]. *)
Theorem call_tool_never_raises (name : string)
    (arguments : Enhanced.Arguments) (t : Enhanced.St) :
  ∃ obj t',
    Enhanced.handle_call_tool name arguments t
    = (Ret (tool_text (JObj obj)), t') ∧
    (name ∈ tool_name <$> EnhancedCatalog.handle_list_tools ∨
     obj = [("error", JStr ("Unknown tool: " +:+ name))]).
Proof.
  unfold tool_text. run_enhanced.
  destruct (String.eqb_spec name "get_cluster_status") as [->|H1].
  { destruct (list_namespace (Enhanced.cluster t) None) as [l|];
      [destruct (default false (Enhanced.include_nodes arguments));
       [destruct (list_node (Enhanced.cluster t)) as [nodes|];
        [destruct (mapM Enhanced.node_ready_entry nodes)|]|]|];
      do 2 eexists; (split; [reflexivity|]); left; cbn; in_list. }
  destruct (String.eqb_spec name "list_pods") as [->|H2].
  { destruct (list_namespaced_pod (Enhanced.cluster t) _) as [l|[]];
      cbn; unfold api_exception_body; try case_bool_decide;
      do 2 eexists; (split; [reflexivity|]); left; cbn; in_list. }
  destruct (String.eqb_spec name "get_deployments") as [->|H3].
  { destruct (list_namespaced_deployment (Enhanced.cluster t) _) as [l|[]];
      cbn; unfold api_exception_body; try case_bool_decide;
      do 2 eexists; (split; [reflexivity|]); left; cbn; in_list. }
  do 2 eexists. split; [reflexivity|]. right. reflexivity.
Qed.

(** X8.  Unless [include_nodes] is set, [get_cluster_status] does not look
    at the nodes: its answer is the same whatever [list_node] does, even
    when it raises. *)
Theorem cluster_status_skips_nodes (arguments : Enhanced.Arguments)
    (t1 t2 : Enhanced.St) :
  default false (Enhanced.include_nodes arguments) = false →
  list_namespace (Enhanced.cluster t1) None
    = list_namespace (Enhanced.cluster t2) None →
  Enhanced.environ t1 = Enhanced.environ t2 →
  (Enhanced.handle_call_tool "get_cluster_status" arguments t1).1
  = (Enhanced.handle_call_tool "get_cluster_status" arguments t2).1.
Proof.
  intros Hi Hn He. run_enhanced. rewrite Hi, Hn, He.
  destruct (list_namespace (Enhanced.cluster t2) None); reflexivity.
Qed.

Lemma cluster_status_skips_nodes_witness :
  let arguments :=
    {| Enhanced.include_nodes := None; Enhanced.namespace := None;
       Enhanced.show_status := None |} in
  (Enhanced.handle_call_tool "get_cluster_status" arguments
     (sample_enhanced (sample_cluster [node_fresh]))).1
  = (Enhanced.handle_call_tool "get_cluster_status" arguments
       (sample_enhanced
          {| list_namespace := list_namespace (sample_cluster []);
             list_node := Raise (OtherException "Read timed out.");
             list_namespaced_pod := λ _, Ret [];
             list_namespaced_deployment := λ _, Ret [] |})).1.
Proof.
  intros arguments.
  apply (cluster_status_skips_nodes arguments); reflexivity.
Defined.

(** X9.  In the two namespace-scoped tools an [ApiException] is answered
    without a trace in the log, while any other exception is answered and
    logged once at ERROR level. *)
Theorem tool_api_errors_are_not_logged (arguments : Enhanced.Arguments)
    (t : Enhanced.St) (e : exn) :
  let ns := default "default" (Enhanced.namespace arguments) in
  list_namespaced_pod (Enhanced.cluster t) ns = Raise e →
  list_namespaced_deployment (Enhanced.cluster t) ns = Raise e →
  let expected name :=
    match e with
    | ApiException _ _ _ => Enhanced.logged t
    | _ => Enhanced.logged t ++
           [{| lvl := ERROR;
               text := "Error calling tool " +:+ name +:+ ": " +:+ str_exn e |}]
    end in
  Enhanced.logged (Enhanced.handle_call_tool "list_pods" arguments t).2
  = expected "list_pods" ∧
  Enhanced.logged (Enhanced.handle_call_tool "get_deployments" arguments t).2
  = expected "get_deployments".
Proof.
  cbn zeta. intros Hp Hd.
  split; run_enhanced; rewrite ?Hp, ?Hd; destruct e; reflexivity.
Qed.

Lemma tool_api_errors_are_not_logged_witness :
  let arguments :=
    {| Enhanced.include_nodes := None; Enhanced.namespace := Some "ghost";
       Enhanced.show_status := None |} in
  let t := sample_enhanced (sample_cluster []) in
  Enhanced.logged (Enhanced.handle_call_tool "list_pods" arguments t).2 = [] ∧
  Enhanced.logged (Enhanced.handle_call_tool "get_deployments" arguments t).2
  = [].
Proof.
  intros arguments t.
  apply (tool_api_errors_are_not_logged arguments t not_found); reflexivity.
Defined.

(** X11.  Every resource and every tool that the catalogs list is served:
    over a cluster in which every read call returns and every node can be
    summarised, reading a listed resource or calling a listed tool gives a
    JSON object without an ["error"] key. *)
Theorem enhanced_catalog_is_served (t : Enhanced.St)
    (arguments : Enhanced.Arguments) :
  answering (Enhanced.cluster t) →
  Forall (λ r, ∃ obj,
            (Enhanced.handle_read_resource (uri r) t).1
            = Ret (Dumps (JObj obj) None) ∧
            dict_get "error" obj = None)
         EnhancedCatalog.handle_list_resources ∧
  Forall (λ tool, ∃ obj,
            (Enhanced.handle_call_tool (tool_name tool) arguments t).1
            = Ret (tool_text (JObj obj)) ∧
            dict_get "error" obj = None)
         EnhancedCatalog.handle_list_tools.
Proof.
  intros (Hns & (nodes & Hnodes & Hsum) & Hpods & Hdeps).
  destruct (Hns None) as [l0 H0], (Hns (Some 1)) as [l1 H1].
  destruct (Hpods (default "default" (Enhanced.namespace arguments)))
    as [pods Hp].
  destruct (Hdeps (default "default" (Enhanced.namespace arguments)))
    as [deps Hd].
  assert (Hinfo : ∃ k, mapM node_info_entry nodes = Ret k).
  { apply mapM_Ret_total. eapply Forall_impl; [exact Hsum|].
    intros n. apply node_info_entry_returns_iff. }
  assert (Hready : ∃ k, mapM Enhanced.node_ready_entry nodes = Ret k).
  { apply mapM_Ret_total. eapply Forall_impl; [exact Hsum|].
    intros n [_ [conds Hc]]. unfold Enhanced.node_ready_entry.
    rewrite Hc. eexists. reflexivity. }
  destruct Hinfo as [infos Hinfo], Hready as [readies Hready].
  unfold tool_text. split.
  - repeat constructor; run_enhanced; cbn;
      rewrite ?H0, ?H1, ?Hnodes; cbn; rewrite ?Hinfo;
      eexists; (split; reflexivity).
  - repeat constructor; run_enhanced; cbn;
      rewrite ?H0, ?Hp, ?Hd; cbn.
    + destruct (default false (Enhanced.include_nodes arguments));
        rewrite ?Hnodes; cbn; rewrite ?Hready;
        eexists; (split; reflexivity).
    + eexists; (split; reflexivity).
    + eexists; (split; reflexivity).
Qed.

Lemma enhanced_catalog_is_served_witness :
  let t := sample_enhanced (open_cluster [node_static; node_dynamic]) in
  let arguments :=
    {| Enhanced.include_nodes := Some true; Enhanced.namespace := None;
       Enhanced.show_status := None |} in
  Forall (λ r, ∃ obj,
            (Enhanced.handle_read_resource (uri r) t).1
            = Ret (Dumps (JObj obj) None) ∧
            dict_get "error" obj = None)
         EnhancedCatalog.handle_list_resources ∧
  Forall (λ tool, ∃ obj,
            (Enhanced.handle_call_tool (tool_name tool) arguments t).1
            = Ret (tool_text (JObj obj)) ∧
            dict_get "error" obj = None)
         EnhancedCatalog.handle_list_tools.
Proof.
  intros t arguments. apply (enhanced_catalog_is_served t arguments).
  split; [|split; [|split]].
  - intros limit. eexists. reflexivity.
  - eexists. split; [reflexivity|].
    repeat constructor; eexists; reflexivity.
  - intros ns. eexists. reflexivity.
  - intros ns. eexists. reflexivity.
Defined.

(** X12.  The defaults that the input schemas of [handle_list_tools]
    declare are the defaults that [handle_call_tool] applies: filling the
    omitted arguments of a listed tool with the declared defaults does not
    change what the call does. *)
Theorem enhanced_declared_defaults_are_applied :
  Forall (λ tool, ∀ arguments t,
            Enhanced.handle_call_tool (tool_name tool)
              (fill_enhanced tool arguments) t
            = Enhanced.handle_call_tool (tool_name tool) arguments t)
         EnhancedCatalog.handle_list_tools.
Proof.
  repeat constructor; intros [inc ns show] t; cbn [tool_name];
    unfold Enhanced.handle_call_tool; cbn [String.eqb Ascii.eqb Bool.eqb];
    cbn [fill_enhanced Enhanced.include_nodes Enhanced.namespace
         Enhanced.show_status];
    destruct inc, ns, show; reflexivity.
Qed.

(** ** [server-claude-bridge.py] *)

(** [call_mcp_api] never raises: a failure becomes an error dict and one
    ERROR record; the API itself is left as it is. *)
Lemma call_mcp_api_run endpoint s :
  Bridge.call_mcp_api endpoint s
  = (Ret (api_or_error s endpoint), after_call s endpoint).
Proof.
  unfold Bridge.call_mcp_api, api_or_error, after_call, try_except.
  destruct (Bridge.api s endpoint); reflexivity.
Qed.

Lemma call_mcp_api_bind {A} endpoint (f : list (string * json) → Bridge.M A) s :
  (Bridge.call_mcp_api endpoint ≫= f) s
  = f (api_or_error s endpoint) (after_call s endpoint).
Proof.
  change ((Bridge.call_mcp_api endpoint ≫= f) s)
    with (py_bind f (Bridge.call_mcp_api endpoint) s).
  unfold py_bind. rewrite call_mcp_api_run. reflexivity.
Qed.

Lemma after_call_api s endpoint :
  Bridge.api (after_call s endpoint) = Bridge.api s.
Proof. unfold after_call. destruct (Bridge.api s endpoint); reflexivity. Qed.

Lemma api_or_error_after_call s endpoint endpoint' :
  api_or_error (after_call s endpoint) endpoint' = api_or_error s endpoint'.
Proof. unfold api_or_error. rewrite after_call_api. reflexivity. Qed.

(** X13.  Reading a resource of the bridge.  For the two listed URIs it
    never raises, whatever the HTTP API does: it returns the indented JSON
    of an object with three sections, each of them the dict that the API
    sent for one endpoint or the error dict made of the exception.  For
    every other URI it raises [ValueError], which nothing catches, and
    calls nothing. *)
Theorem bridge_read_resource_cases (uri' : string) (s : Bridge.St) :
  (uri' ∈ uri <$> BridgeTools.handle_list_resources ∧
   ∃ k1 e1 k2 e2 k3 e3 s',
     BridgeTools.handle_read_resource uri' s
     = (Ret (Dumps (JObj [(k1, JObj (api_or_error s e1));
                          (k2, JObj (api_or_error s e2));
                          (k3, JObj (api_or_error s e3))]) (Some 2)), s') ∧
     Bridge.api s' = Bridge.api s) ∨
  ((uri' ∉ uri <$> BridgeTools.handle_list_resources) ∧
   BridgeTools.handle_read_resource uri' s
   = (Raise (ValueError ("Unknown resource: " +:+ uri')), s)).
Proof.
  unfold BridgeTools.handle_read_resource.
  destruct (String.eqb_spec uri' "resource://cluster-status") as [->|N1].
  { left. split; [cbn; in_list|].
    rewrite !call_mcp_api_bind, !api_or_error_after_call.
    do 7 eexists. split; [reflexivity|]. cbn.
    by rewrite !after_call_api. }
  destruct (String.eqb_spec uri' "resource://pod-status") as [->|N2].
  { left. split; [cbn; in_list|].
    rewrite !call_mcp_api_bind, !api_or_error_after_call.
    do 7 eexists. split; [reflexivity|]. cbn.
    by rewrite !after_call_api. }
  right. split; [cbn; in_list|reflexivity].
Qed.

Ltac run_bridge :=
  unfold BridgeTools.handle_call_tool, BridgeTools.check_cluster_health,
    BridgeTools.check_pods, BridgeTools.get_deployments,
    Bridge.get_node_info;
  cbn [String.eqb Ascii.eqb Bool.eqb];
  rewrite ?call_mcp_api_bind, ?api_or_error_after_call.

(** A tool of the bridge that returns starts its text with a literal of its
    own. *)
Lemma bridge_tool_first_literal name arguments s r :
  name ∈ tool_name <$> BridgeTools.handle_list_tools →
  (BridgeTools.handle_call_tool name arguments s).1 = Ret r →
  ∃ lit rest,
    r = BridgeTools.text_reply (Bridge.Lit lit :: rest) ∧
    lit ≠ "❌ Unknown tool: ".
Proof.
  cbn. rewrite !elem_of_cons, elem_of_nil.
  intros [->|[->|[->|[->|[]]]]]; run_bridge; py_unfold; unfold py_bind.
  - destruct (Bridge.eq_str _ _).
    + destruct (BridgeTools.count_nodes BridgeTools.is_ready_node _);
        [|discriminate].
      destruct (BridgeTools.count_nodes Bridge.not_baseline _);
        [|discriminate].
      intros [= <-]. do 2 eexists. split; [reflexivity|discriminate].
    + intros [= <-]. do 2 eexists. split; [reflexivity|discriminate].
  - destruct (dict_get "error" _).
    + intros [= <-]. do 2 eexists. split; [reflexivity|discriminate].
    + destruct (Bridge.node_list _ _) as [nl|]; [|discriminate]. cbn.
      destruct (Bridge.json_len nl); [|discriminate]. cbn.
      destruct (match Bridge.json_iter nl with Ret _ => _ | Raise _ => _ end);
        [|discriminate].
      intros [= <-]. do 2 eexists. split; [reflexivity|discriminate].
  - destruct (dict_get "error" _).
    + intros [= <-]. do 2 eexists. split; [reflexivity|discriminate].
    + destruct (py_eq _ _).
      * intros [= <-]. do 2 eexists. split; [reflexivity|discriminate].
      * destruct (match Bridge.json_iter _ with Ret _ => _ | Raise _ => _ end);
          [|discriminate].
        intros [= <-]. do 2 eexists. split; [reflexivity|discriminate].
  - destruct (dict_get "error" _).
    + intros [= <-]. do 2 eexists. split; [reflexivity|discriminate].
    + destruct (py_eq _ _).
      * intros [= <-]. do 2 eexists. split; [reflexivity|discriminate].
      * destruct (match Bridge.json_iter _ with Ret _ => _ | Raise _ => _ end);
          [|discriminate].
        intros [= <-]. do 2 eexists. split; [reflexivity|discriminate].
Qed.

(** X14.  The tool dispatcher of the bridge answers a name with the text
    ["❌ Unknown tool: <name>"] exactly when [handle_list_tools] does not
    list the name; it then returns normally and calls nothing. *)
Theorem bridge_unknown_tool_iff (name : string)
    (arguments : BridgeTools.Arguments) (s : Bridge.St) :
  (BridgeTools.handle_call_tool name arguments s).1
    = Ret (unknown_tool_reply name)
  ↔ name ∉ tool_name <$> BridgeTools.handle_list_tools.
Proof.
  split.
  - intros Hr Hin.
    destruct (bridge_tool_first_literal name arguments s _ Hin Hr)
      as (lit & rest & [= <- _] & Hne).
    by apply Hne.
  - cbn. rewrite !not_elem_of_cons. intros (N1 & N2 & N3 & N4 & _).
    unfold BridgeTools.handle_call_tool.
    apply String.eqb_neq in N1, N2, N3, N4. rewrite N1, N2, N3, N4.
    reflexivity.
Qed.

Lemma bridge_unknown_tool_state (name : string)
    (arguments : BridgeTools.Arguments) (s : Bridge.St) :
  name ∉ tool_name <$> BridgeTools.handle_list_tools →
  BridgeTools.handle_call_tool name arguments s
  = (Ret (unknown_tool_reply name), s).
Proof.
  cbn. rewrite !not_elem_of_cons. intros (N1 & N2 & N3 & N4 & _).
  unfold BridgeTools.handle_call_tool.
  apply String.eqb_neq in N1, N2, N3, N4. rewrite N1, N2, N3, N4.
  reflexivity.
Qed.

(** X15.  When the [/health] endpoint cannot be reached, the health tool
    does not raise: it reports the failed check with the text of the
    exception, whatever the other endpoints answer. *)
Theorem bridge_health_when_api_down (s : Bridge.St) (e : exn) :
  Bridge.api s "/health" = Raise e →
  (BridgeTools.handle_call_tool "check_cluster_health"
     {| BridgeTools.include_karpenter_only := None;
        BridgeTools.namespace := None |} s).1
  = Ret (BridgeTools.text_reply
           [Bridge.Lit "❌ Cluster health check failed: ";
            Bridge.Fmt (JStr (str_exn e))]).
Proof.
  intros H. run_bridge. unfold api_or_error. rewrite H. reflexivity.
Qed.

Lemma bridge_health_when_api_down_witness :
  (BridgeTools.handle_call_tool "check_cluster_health"
     {| BridgeTools.include_karpenter_only := None;
        BridgeTools.namespace := None |} unreachable_api).1
  = Ret (BridgeTools.text_reply
           [Bridge.Lit "❌ Cluster health check failed: ";
            Bridge.Fmt (JStr "Connection refused")]).
Proof.
  apply (bridge_health_when_api_down unreachable_api
           (OtherException "Connection refused")).
  reflexivity.
Defined.

Lemma api_or_error_Ret s endpoint d :
  Bridge.api s endpoint = Ret d → api_or_error s endpoint = d.
Proof. unfold api_or_error. intros ->. reflexivity. Qed.

Lemma node_block_object o : ∃ block, Bridge.node_block (JObj o) = Ret block.
Proof. eexists. reflexivity. Qed.

Lemma count_nodes_objects p nodes items :
  dict_get "nodes" nodes = Some (JList items) →
  Forall (λ n, ∃ b, p n = Ret b) items →
  BridgeTools.count_nodes p nodes
  = Ret (Z.of_nat (length (filter (λ n, holds (p n)) items))).
Proof.
  intros Hn Hp. unfold BridgeTools.count_nodes. rewrite Hn. cbn.
  py_unfold. rewrite (filterM_Ret_total _ _ Hp). reflexivity.
Qed.

(** X16.  The two tools of the bridge count the same nodes: over an API
    that reports a healthy cluster and a listing of node objects, the
    number that the health tool shows after ["Karpenter nodes:"] is the
    number that the node tool, asked for Karpenter-managed nodes only,
    shows in its first line, namely the number of listed nodes whose
    instance type is not ["t3.medium"]. *)
Theorem bridge_karpenter_counts_agree (s : Bridge.St)
    (health cluster_info nodes : list (string * json)) (items : list json) :
  Bridge.api s "/health" = Ret health →
  Bridge.api s "/cluster-info" = Ret cluster_info →
  Bridge.api s "/nodes" = Ret nodes →
  dict_get "status" health = Some (JStr "healthy") →
  dict_get "error" nodes = None →
  dict_get "nodes" nodes = Some (JList items) →
  Forall is_object items →
  ∃ before after rest,
    let k := Z.of_nat (length (filter (λ n, holds (Bridge.not_baseline n))
                                 items)) in
    (BridgeTools.handle_call_tool "check_cluster_health"
       {| BridgeTools.include_karpenter_only := None;
          BridgeTools.namespace := None |} s).1
    = Ret (BridgeTools.text_reply
             (before ++ [Bridge.Lit "   • Karpenter nodes: ";
                         Bridge.Fmt (JInt k)] ++ after)) ∧
    (BridgeTools.handle_call_tool "get_node_info"
       {| BridgeTools.include_karpenter_only := Some true;
          BridgeTools.namespace := None |} s).1
    = Ret (BridgeTools.text_reply
             ([Bridge.Lit "🖥️ Your cluster has "; Bridge.Fmt (JInt k)]
              ++ rest)).
Proof.
  intros Hh Hc Hn Hs He Hl Hobj.
  assert (Hbase : Forall (λ n, ∃ b, Bridge.not_baseline n = Ret b) items).
  { eapply Forall_impl; [exact Hobj|]. intros n [o ->]. by eexists. }
  assert (Hready : Forall (λ n, ∃ b, BridgeTools.is_ready_node n = Ret b)
                     items).
  { eapply Forall_impl; [exact Hobj|]. intros n [o ->]. by eexists. }
  set (kept := filter (λ n, holds (Bridge.not_baseline n)) items).
  assert (Hblocks : ∃ blocks, mapM Bridge.node_block kept = Ret blocks).
  { apply mapM_Ret_total. apply Forall_forall. intros n Hin.
    apply list_elem_of_filter in Hin as [_ Hin].
    rewrite Forall_forall in Hobj. destruct (Hobj n Hin) as [o ->].
    apply node_block_object. }
  destruct Hblocks as [blocks Hblocks].
  eexists (_ :: _ :: _ :: _ :: _ :: _ :: _ :: _ :: _ :: _ :: _ :: _ :: _
           :: _ :: _ :: _ :: _ :: _ :: _ :: [_]), _, _.
  cbn zeta. split.
  - run_bridge.
    rewrite (api_or_error_Ret _ _ _ Hh), (api_or_error_Ret _ _ _ Hc),
      (api_or_error_Ret _ _ _ Hn).
    rewrite Hs. cbn [default Bridge.eq_str String.eqb Ascii.eqb Bool.eqb].
    py_unfold. unfold py_bind.
    rewrite (count_nodes_objects _ _ _ Hl Hready),
      (count_nodes_objects _ _ _ Hl Hbase).
    cbn. reflexivity.
  - run_bridge. rewrite (api_or_error_Ret _ _ _ Hn), He.
    unfold Bridge.node_list. rewrite Hl.
    py_unfold. unfold py_bind. cbn.
    rewrite (filterM_Ret_total _ _ Hbase). fold kept. cbn.
    rewrite Hblocks. reflexivity.
Qed.

Lemma bridge_karpenter_counts_agree_witness :
  let s :=
    {| Bridge.api := λ endpoint,
         if String.eqb endpoint "/health"
         then Ret [("status", JStr "healthy");
                   ("kubernetes_api", JStr "accessible")]
         else Ret sample_nodes_body;
       Bridge.logged := [] |} in
  ∃ before after rest,
    (BridgeTools.handle_call_tool "check_cluster_health"
       {| BridgeTools.include_karpenter_only := None;
          BridgeTools.namespace := None |} s).1
    = Ret (BridgeTools.text_reply
             (before ++ [Bridge.Lit "   • Karpenter nodes: ";
                         Bridge.Fmt (JInt 1)] ++ after)) ∧
    (BridgeTools.handle_call_tool "get_node_info"
       {| BridgeTools.include_karpenter_only := Some true;
          BridgeTools.namespace := None |} s).1
    = Ret (BridgeTools.text_reply
             ([Bridge.Lit "🖥️ Your cluster has "; Bridge.Fmt (JInt 1)]
              ++ rest)).
Proof.
  intros s.
  apply (bridge_karpenter_counts_agree s
           [("status", JStr "healthy"); ("kubernetes_api", JStr "accessible")]
           sample_nodes_body sample_nodes_body
           [JObj [("name", JStr "ip-10-0-1-10"); ("status", JStr "Ready");
                  ("instance_type", JStr "t3.medium");
                  ("zone", JStr "us-east-1a")];
            JObj [("name", JStr "ip-10-0-2-20"); ("status", JStr "NotReady");
                  ("instance_type", JStr "m5.large");
                  ("zone", JStr "unknown")]]);
    try reflexivity.
  repeat constructor; eexists; reflexivity.
Defined.

(** ** The bridge over what [server-simple.py] sends *)

(** X17.  A pod summary built by [handle_pods] is always rendered by the
    [check_pods] tool, without raising; its status emoji is the check mark
    exactly when the phase is ["Running"] and some condition of type Ready
    has status True. *)
Theorem pod_block_of_pod_info (pod : V1Pod) :
  ∃ rest,
    BridgeTools.pod_block (pod_info pod)
    = Ret (Bridge.Lit
             (if bool_decide (phase (pod_status pod) = Some "Running")
                 && existsb is_ready (or_empty (pod_conditions (pod_status pod)))
              then "✅" else "❌") :: rest).
Proof.
  unfold BridgeTools.pod_block, pod_info. cbn.
  destruct (phase (pod_status pod)) as [ph|]; cbn.
  - destruct (String.eqb_spec ph "Running") as [->|Hne].
    + rewrite bool_decide_true by done. cbn.
      pose proof (ready_count_bounds (pod_conditions (pod_status pod)))
        as [_ Hpos].
      destruct (existsb is_ready _) eqn:Ex.
      * apply proj2 in Hpos. apply Z.ltb_lt in Hpos; [|done].
        rewrite Hpos. eexists. reflexivity.
      * destruct (0 <? ready_count _)%Z eqn:Hlt.
        -- apply Z.ltb_lt, Hpos in Hlt. discriminate.
        -- eexists. reflexivity.
    + rewrite bool_decide_false by congruence. eexists. reflexivity.
  - eexists. reflexivity.
Qed.

(** X18.  A pod dict whose phase is ["Running"] and that has no ["ready"]
    key makes [check_pods] raise: the comparison [None > 0] is a
    [TypeError], and the tool has no [try] around it. *)
Theorem check_pods_raises_without_ready (s : Bridge.St)
    (arguments : BridgeTools.Arguments) (pods : list (string * json))
    (o : list (string * json)) (others : list json) :
  Bridge.api s ("/pods?namespace="
                +:+ default "mcp-server" (BridgeTools.namespace arguments))
    = Ret pods →
  dict_get "error" pods = None →
  py_eq (default (JInt 0) (dict_get "pod_count" pods)) (JInt 0) = false →
  dict_get "pods" pods = Some (JList (JObj o :: others)) →
  dict_get "phase" o = Some (JStr "Running") →
  dict_get "ready" o = None →
  (BridgeTools.handle_call_tool "check_pods" arguments s).1
  = Raise (TypeError
             "'>' not supported between instances of 'NoneType' and 'int'").
Proof.
  intros Ha He Hc Hl Hp Hr. run_bridge.
  rewrite (api_or_error_Ret _ _ _ Ha), He, Hc, Hl. cbn.
  py_unfold. unfold py_bind. cbn.
  unfold BridgeTools.pod_block. cbn. rewrite Hp, Hr. reflexivity.
Qed.

Lemma check_pods_raises_without_ready_witness :
  (BridgeTools.handle_call_tool "check_pods"
     {| BridgeTools.include_karpenter_only := None;
        BridgeTools.namespace := Some "default" |}
     (sample_api [("namespace", JStr "default"); ("pod_count", JInt 1);
                  ("pods", JList [JObj [("name", JStr "web-0");
                                        ("phase", JStr "Running")]])])).1
  = Raise (TypeError
             "'>' not supported between instances of 'NoneType' and 'int'").
Proof.
  apply (check_pods_raises_without_ready _ _
           [("namespace", JStr "default"); ("pod_count", JInt 1);
            ("pods", JList [JObj [("name", JStr "web-0");
                                  ("phase", JStr "Running")]])]
           [("name", JStr "web-0"); ("phase", JStr "Running")] []);
    reflexivity.
Defined.

(** X19.  A deployment summary built by [handle_deployments] is always
    rendered by the [get_deployments] tool of the bridge; it gets the check
    mark exactly when the desired replica count is set and both the ready
    and the available count (0 when unset) are equal to it. *)
Theorem deployment_block_of_deployment_info (d : V1Deployment) :
  ∃ rest,
    BridgeTools.deployment_block (deployment_info d)
    = Ret (Bridge.Lit
             (if bool_decide
                   (replicas (dep_spec d)
                    = Some (or_zero (ready_replicas (dep_status d))) ∧
                    replicas (dep_spec d)
                    = Some (or_zero (available_replicas (dep_status d))))
              then "✅" else "⚠️") :: rest).
Proof.
  unfold BridgeTools.deployment_block, deployment_info. cbn.
  destruct (replicas (dep_spec d)) as [r|]; cbn.
  - destruct (Z.eqb_spec (or_zero (ready_replicas (dep_status d))) r) as [E1|N1],
      (Z.eqb_spec (or_zero (available_replicas (dep_status d))) r) as [E2|N2];
      cbn.
    + rewrite bool_decide_true by (split; congruence). eexists. reflexivity.
    + rewrite bool_decide_false by (intros [_ [=]]; congruence).
      eexists. reflexivity.
    + rewrite bool_decide_false by (intros [[=] _]; congruence).
      eexists. reflexivity.
    + rewrite bool_decide_false by (intros [[=] _]; congruence).
      eexists. reflexivity.
  - rewrite bool_decide_false by (intros [[=] _]). eexists. reflexivity.
Qed.

(** X20.  How the Karpenter heuristic of the bridge reads a node summary of
    the server: the summary is kept exactly when the node's instance-type
    label is not ["t3.medium"]; in particular a node without that label,
    summarised as ["unknown"], counts as Karpenter-managed. *)
Theorem node_summary_passes_filter (node : V1Node) (j : json) :
  node_info_entry node = Ret j →
  ∃ m,
    labels (node_metadata node) = Some m ∧
    json_field "instance_type" j
    = Some (JStr (default "unknown"
                    (m !! "node.kubernetes.io/instance-type"))) ∧
    Bridge.not_baseline j
    = Ret (bool_decide
             (m !! "node.kubernetes.io/instance-type" ≠ Some "t3.medium")).
Proof.
  unfold node_info_entry, py_iter, py_dict_get.
  destruct (node_conditions (node_status node)) as [conds|]; [|discriminate].
  destruct (labels (node_metadata node)) as [m|]; [|discriminate].
  cbn. intros [= <-]. exists m. split; [done|]. split; [done|].
  cbn. unfold Bridge.ne_str, Bridge.eq_str.
  destruct (m !! "node.kubernetes.io/instance-type") as [it|]; cbn.
  - destruct (String.eqb_spec it "t3.medium") as [->|Hne].
    + rewrite bool_decide_false by (intros H; by apply H). reflexivity.
    + rewrite bool_decide_true by congruence. reflexivity.
  - rewrite bool_decide_true by done. reflexivity.
Qed.

Lemma node_summary_passes_filter_witness :
  ∃ m,
    labels (node_metadata node_dynamic) = Some m ∧
    json_field "instance_type"
      (JObj [("name", JStr "ip-10-0-2-20"); ("status", JStr "NotReady");
             ("instance_type", JStr "m5.large"); ("zone", JStr "unknown")])
    = Some (JStr (default "unknown"
                    (m !! "node.kubernetes.io/instance-type"))) ∧
    Bridge.not_baseline
      (JObj [("name", JStr "ip-10-0-2-20"); ("status", JStr "NotReady");
             ("instance_type", JStr "m5.large"); ("zone", JStr "unknown")])
    = Ret (bool_decide
             (m !! "node.kubernetes.io/instance-type" ≠ Some "t3.medium")).
Proof.
  apply (node_summary_passes_filter node_dynamic). reflexivity.
Defined.

(** X21.  The defaults declared by the input schemas of the bridge are the
    defaults its tools apply. *)
Theorem bridge_declared_defaults_are_applied :
  Forall (λ tool, ∀ arguments s,
            BridgeTools.handle_call_tool (tool_name tool)
              (fill_bridge tool arguments) s
            = BridgeTools.handle_call_tool (tool_name tool) arguments s)
         BridgeTools.handle_list_tools.
Proof.
  repeat constructor; intros [inc ns] s; cbn [tool_name];
    unfold BridgeTools.handle_call_tool; cbn [String.eqb Ascii.eqb Bool.eqb];
    unfold BridgeTools.check_pods, BridgeTools.get_deployments,
      Bridge.get_node_info;
    cbn [fill_bridge BridgeTools.include_karpenter_only
         BridgeTools.namespace Bridge.include_karpenter_only];
    destruct inc, ns; reflexivity.
Qed.

(** ** [server.py] *)

(** X22.  In the first variant the dispatchers and the catalogs agree, and
    nothing is caught: a tool call raises [ValueError] exactly when
    [handle_list_tools] does not list the name, and a resource read raises
    [ValueError] exactly when [handle_list_resources] does not list the
    URI; every other call returns. *)
Theorem basic_dispatch_matches_catalog (name uri' : string)
    (arguments : Basic.Arguments) :
  (Basic.handle_call_tool name arguments
     = Raise (ValueError ("Unknown tool: " +:+ name))
   ↔ name ∉ tool_name <$> Basic.handle_list_tools) ∧
  ((∃ reply, Basic.handle_call_tool name arguments = Ret reply)
   ↔ name ∈ tool_name <$> Basic.handle_list_tools) ∧
  (Basic.handle_read_resource uri'
     = Raise (ValueError ("Unknown resource: " +:+ uri'))
   ↔ uri' ∉ uri <$> Basic.handle_list_resources) ∧
  ((∃ text, Basic.handle_read_resource uri' = Ret text)
   ↔ uri' ∈ uri <$> Basic.handle_list_resources).
Proof.
  unfold Basic.handle_call_tool, Basic.handle_read_resource. cbn.
  rewrite !not_elem_of_cons, !elem_of_cons, !elem_of_nil.
  destruct (String.eqb_spec name "get_cluster_status") as [->|N1],
    (String.eqb_spec uri' "resource://cluster-info") as [->|M1];
    try destruct (String.eqb_spec name "list_pods") as [->|N2];
    try destruct (String.eqb_spec uri' "resource://health") as [->|M2];
    repeat split; try discriminate; try tauto; eauto;
    try (intros [? [=]]); try (intros [[] _]); try (intros (_ & [] & _));
    intuition congruence.
Qed.

(** X23.  The declared defaults of the first variant are the applied ones;
    [cluster_name], which the schema lists as required and gives no default,
    may still be omitted. *)
Theorem basic_declared_defaults_are_applied :
  Forall (λ tool, ∀ arguments,
            (∃ reply,
               Basic.handle_call_tool (tool_name tool) arguments = Ret reply) ∧
            Basic.handle_call_tool (tool_name tool)
              (fill_basic tool arguments)
            = Basic.handle_call_tool (tool_name tool) arguments)
         Basic.handle_list_tools.
Proof.
  repeat constructor; try (eexists; reflexivity);
    destruct arguments as [cn ns]; destruct cn, ns; reflexivity.
Qed.

(** ** [production-value-analysis.py] *)

Lemma filterM_partition {A} (p q : A → outcome bool) (l : list A) :
  Forall (λ x, ∃ b, p x = Ret b ∧ q x = Ret (negb b)) l →
  ∃ m k, filterM p l = Ret m ∧ filterM q l = Ret k ∧ m ++ k ≡ₚ l.
Proof.
  induction 1 as [|x l (b & Hp & Hq) _ (m & k & Hm & Hk & Hperm)].
  - exists [], []. repeat split; reflexivity.
  - cbn. py_unfold. rewrite Hp, Hq, Hm, Hk. destruct b; cbn.
    + exists (x :: m), k. repeat split. cbn. by rewrite Hperm.
    + exists m, (x :: k). repeat split.
      by rewrite <- Permutation_middle, Hperm.
Qed.

(** X24.  The analysis script splits the node listing in two: when
    [nodes['nodes']] is a sequence of dicts that all have an
    [instance_type], both comprehensions return, and the managed nodes
    followed by the Karpenter nodes are a rearrangement of the listing, so
    that every node is counted once. *)
Theorem analysis_split_is_a_partition (nodes : json) (items : list json) :
  py_subscript nodes "nodes" ≫= Bridge.json_iter = Ret items →
  Forall (λ n, ∃ it, py_subscript n "instance_type" = Ret it) items →
  ∃ managed karpenter,
    Analysis.managed_nodes nodes = Ret managed ∧
    Analysis.karpenter_nodes nodes = Ret karpenter ∧
    managed ++ karpenter ≡ₚ items ∧
    (length managed + length karpenter = length items)%nat.
Proof.
  intros Hitems Hkey.
  unfold Analysis.managed_nodes, Analysis.karpenter_nodes.
  rewrite Hitems.
  change (Ret items ≫= ?f) with (f items). cbn beta.
  edestruct (filterM_partition
    (λ n, it ← py_subscript n "instance_type";
          mret (Bridge.eq_str it "t3.medium"))
    (λ n, it ← py_subscript n "instance_type";
          mret (Bridge.ne_str it "t3.medium")) items)
    as (m & k & Hm & Hk & Hperm).
  { eapply Forall_impl; [exact Hkey|]. intros n [it ->].
    eexists. split; reflexivity. }
  exists m, k. split; [exact Hm|]. split; [exact Hk|]. split; [exact Hperm|].
  rewrite <- length_app. by rewrite Hperm.
Qed.

Lemma analysis_split_is_a_partition_witness :
  ∃ managed karpenter,
    Analysis.managed_nodes (JObj sample_nodes_body) = Ret managed ∧
    Analysis.karpenter_nodes (JObj sample_nodes_body) = Ret karpenter ∧
    managed ++ karpenter
    ≡ₚ [JObj [("name", JStr "ip-10-0-1-10"); ("status", JStr "Ready");
              ("instance_type", JStr "t3.medium");
              ("zone", JStr "us-east-1a")];
        JObj [("name", JStr "ip-10-0-2-20"); ("status", JStr "NotReady");
              ("instance_type", JStr "m5.large"); ("zone", JStr "unknown")]] ∧
    (length managed + length karpenter = 2)%nat.
Proof.
  apply (analysis_split_is_a_partition (JObj sample_nodes_body)).
  - reflexivity.
  - repeat constructor; eexists; reflexivity.
Defined.

(** ** [server-enhanced.py], the node part of [get_cluster_status] *)

Lemma node_ready_entry_returns_iff node :
  (∃ j, Enhanced.node_ready_entry node = Ret j)
  ↔ is_Some (node_conditions (node_status node)).
Proof.
  unfold Enhanced.node_ready_entry, py_iter.
  destruct (node_conditions (node_status node)); cbn; split; eauto.
  - intros [j [=]].
  - intros [? [=]].
Qed.

(** X10.  With [include_nodes] set, [get_cluster_status] adds a node
    listing whose count is the number of node records, and it needs only
    the conditions of each node, not its labels: the answer carries the
    listing exactly when every record has a conditions list, and is the
    bare error object otherwise, the namespace count being lost with it. *)
Theorem cluster_status_with_nodes (arguments : Enhanced.Arguments)
    (t : Enhanced.St) (namespaces : list V1Namespace) (nodes : list V1Node) :
  Enhanced.include_nodes arguments = Some true →
  list_namespace (Enhanced.cluster t) None = Ret namespaces →
  list_node (Enhanced.cluster t) = Ret nodes →
  let r := Enhanced.handle_call_tool "get_cluster_status" arguments t in
  ((∃ obj entries,
      r.1 = Ret (tool_text (JObj obj)) ∧
      dict_get "namespace_count" obj
      = Some (JInt (Z.of_nat (length namespaces))) ∧
      dict_get "node_count" obj = Some (JInt (Z.of_nat (length nodes))) ∧
      dict_get "nodes" obj = Some (JList entries) ∧
      length entries = length nodes)
   ↔ Forall (λ n, is_Some (node_conditions (node_status n))) nodes) ∧
  ((∃ msg, r.1 = Ret (tool_text (error_body msg)))
   ↔ Exists (λ n, node_conditions (node_status n) = None) nodes).
Proof.
  intros Hi Hns Hn r.
  assert (Hall : Forall (λ n, is_Some (node_conditions (node_status n))) nodes
                 ↔ ∃ k, mapM Enhanced.node_ready_entry nodes = Ret k).
  { rewrite mapM_Ret_iff. apply Forall_proper; [|done].
    intros n. symmetry. apply node_ready_entry_returns_iff. }
  assert (Hex : Exists (λ n, node_conditions (node_status n) = None) nodes
                ↔ ¬ Forall (λ n, is_Some (node_conditions (node_status n)))
                      nodes).
  { split.
    - intros Hx HF. apply Exists_exists in Hx as (n & Hin & Hnone).
      rewrite Forall_forall in HF. destruct (HF n Hin) as [c Hc]. congruence.
    - intros HF. apply not_Forall_Exists in HF; [|apply _].
      eapply Exists_impl; [exact HF|]. intros n Hno. cbn in Hno.
      by apply eq_None_not_Some. }
  subst r. revert Hall. unfold tool_text. run_enhanced.
  rewrite Hi, Hns. cbn. rewrite Hn. cbn.
  destruct (mapM Enhanced.node_ready_entry nodes) as [k|e] eqn:E; intros Hall.
  - split.
    + split; [intros _; apply Hall; eauto|].
      intros _. do 2 eexists. split; [reflexivity|].
      split; [reflexivity|]. split; [reflexivity|]. split; [reflexivity|].
      apply (mapM_Ret_length _ _ _ E).
    + rewrite Hex. split.
      * intros (msg & [=]).
      * intros Hno. exfalso. apply Hno, Hall. eauto.
  - assert (Hno : ¬ Forall (λ n, is_Some (node_conditions (node_status n)))
                      nodes).
    { intros H. apply Hall in H as [k [=]]. }
    split.
    + split; [intros (obj & entries & [= <-] & _ & [=] & _)|].
      intros H. contradiction.
    + rewrite Hex. split; [done|]. intros _. eexists. reflexivity.
Qed.

Lemma cluster_status_with_nodes_witness :
  let arguments :=
    {| Enhanced.include_nodes := Some true; Enhanced.namespace := None;
       Enhanced.show_status := None |} in
  let r := Enhanced.handle_call_tool "get_cluster_status" arguments
             (sample_enhanced (open_cluster [node_static; node_fresh])) in
  ((∃ obj entries,
      r.1 = Ret (tool_text (JObj obj)) ∧
      dict_get "namespace_count" obj = Some (JInt 1) ∧
      dict_get "node_count" obj = Some (JInt 2) ∧
      dict_get "nodes" obj = Some (JList entries) ∧
      length entries = 2%nat)
   ↔ Forall (λ n, is_Some (node_conditions (node_status n)))
       [node_static; node_fresh]) ∧
  ((∃ msg, r.1 = Ret (tool_text (error_body msg)))
   ↔ Exists (λ n, node_conditions (node_status n) = None)
       [node_static; node_fresh]).
Proof.
  intros arguments.
  apply (cluster_status_with_nodes arguments
           (sample_enhanced (open_cluster [node_static; node_fresh]))
           [{| ns_metadata := meta "default" [] |}]
           [node_static; node_fresh]); reflexivity.
Defined.

(** The defaults that filling reads from the schemas. *)
Example declared_defaults_sample :
  fill_enhanced
    (default {| tool_name := EmptyString; tool_description := EmptyString;
                inputSchema := JNull |}
       (EnhancedCatalog.handle_list_tools !! 1%nat))
    {| Enhanced.include_nodes := None; Enhanced.namespace := None;
       Enhanced.show_status := None |}
  = {| Enhanced.include_nodes := None; Enhanced.namespace := Some "default";
       Enhanced.show_status := Some true |} ∧
  fill_bridge
    (default {| tool_name := EmptyString; tool_description := EmptyString;
                inputSchema := JNull |}
       (BridgeTools.handle_list_tools !! 2%nat))
    {| BridgeTools.include_karpenter_only := None;
       BridgeTools.namespace := None |}
  = {| BridgeTools.include_karpenter_only := None;
       BridgeTools.namespace := Some "mcp-server" |}.
Proof. split; reflexivity. Qed.

(** ** [do_GET] from the request target *)




(** Claim C8, at the replies that [do_GET] builds with [send_error].  A
    request for an unrecognized path is answered with 404 and a request
    whose target does not parse with 500; the headers of both replies are
    Server, Date, Connection, Content-Type and Content-Length, without
    [Access-Control-Allow-Origin].  The 500 reply that [handle_pods] sends
    for a missing namespace, over the same state, does carry the header:
    only [send_json_response] adds it. *)
Theorem cors_missing_on_send_error :
  let state := Simple.connect (sample_state (sample_cluster [node_static])) in
  let unrecognized := SimpleRaw.do_GET (parsed_request "/nope" None) state in
  let unparsed := SimpleRaw.do_GET unparseable_request state in
  let handled :=
    SimpleRaw.do_GET (parsed_request "/pods" (Some "ghost")) state in
  (Simple.sent_status (Simple.wfile unrecognized.2) = [404] ∧
   (Simple.sent_headers (Simple.wfile unrecognized.2)).*1
   = ["Server"; "Date"; "Connection"; "Content-Type"; "Content-Length"]) ∧
  (Simple.sent_status (Simple.wfile unparsed.2) = [500] ∧
   (Simple.sent_headers (Simple.wfile unparsed.2)).*1
   = ["Server"; "Date"; "Connection"; "Content-Type"; "Content-Length"]) ∧
  (Simple.sent_status (Simple.wfile handled.2) = [500] ∧
   Simple.sent_headers (Simple.wfile handled.2)
   = [("Server", Simple.HVersion);
      ("Date", Simple.HDate "Thu, 01 Jan 2026 00:00:00 GMT");
      ("Content-type", Simple.HLit "application/json");
      ("Access-Control-Allow-Origin", Simple.HLit "*")]).
Proof. repeat split. Qed.
